(** * FracNet: the network definition of [networkfile.py]

    The file embeds the model definition of [networkfile.py]: the two layer
    primitives [convbr] and [fcbrd], the residual [block], and the network
    [FracNet] with its constructor, [make_chunk] and [forward].

    Layers are kept as architecture descriptions (hyper-parameters, plus the
    one integer buffer of a batch normalisation layer that a forward pass
    updates).  Tensors are abstract: the definitions of the source are
    written once over any type of tensors that supports the three framework
    operations the source uses, and are then run on tensor shapes, where the
    framework's documented shape rules decide whether a call succeeds. *)

From Stdlib Require Import ZArith List Bool QArith Lia.
Import ListNotations.
Open Scope Z_scope.

Set Implicit Arguments.

(** ** Results and errors *)

(** What a framework call can complain about when it looks at the shape of
    its input. *)
Inductive shape_fault : Type :=
| RankMismatch         (* wrong number of dimensions *)
| ChannelMismatch      (* dimension 1 differs from in_channels / num_features *)
| KernelExceedsInput   (* padded input smaller than the kernel *)
| FeatureMismatch      (* last dimension differs from in_features *)
| BroadcastMismatch    (* operand of an in-place addition does not broadcast *)
| TooFewValues         (* batch normalisation in training mode, one value per channel *)
| AmbiguousReshape.    (* reshape(0, -1) *)

Inductive error : Type :=
| IndexError                       (* list index out of range *)
| BadHyperparameter                (* non-positive kernel or stride, negative padding *)
| ShapeError (why : shape_fault).

Inductive result (A : Type) : Type :=
| Ok (a : A)
| Err (e : error).

Arguments Ok {A} a.
Arguments Err {A} e.


(** Binding in the error monad, used by the constructor. *)
Definition rbind {A B} (r : result A) (k : A -> result B) : result B :=
  match r with
  | Ok a => k a
  | Err e => Err e
  end.

Notation "'let!' x ':=' c 'in' k" := (rbind c (fun x => k))
  (at level 10, x name, c at level 100, k at level 200).

(** Methods mutate [self] and may raise: a computation over a state [S]
    returns the state it leaves behind together with a value or an error. *)
Definition M (S A : Type) : Type := S -> S * result A.

Definition ret {S A} (a : A) : M S A := fun self => (self, Ok a).

Definition bind {S A B} (c : M S A) (k : A -> M S B) : M S B :=
  fun self =>
    match c self with
    | (self', Ok a) => k a self'
    | (self', Err e) => (self', Err e)
    end.

Definition lift {S A} (r : result A) : M S A := fun self => (self, r).

Notation "x <- c ;; k" := (bind c (fun x => k))
  (at level 61, c at next level, right associativity).

(** An attribute of an object of type [S] holding a value of type [A]. *)
Record attr (S A : Type) : Type := Attr {
  get : S -> A;
  set : A -> S -> S
}.

(** [self.a(x)]: run the sub-module stored in attribute [a]; the sub-module
    is written back with whatever the call did to it. *)
Definition call {S L T} (fwd : L -> T -> L * result T) (a : attr S L) (x : T)
  : M S T :=
  fun self =>
    let (l', r) := fwd (get a self) x in (set a l' self, r).

(** Python's [l[i]] for a non-negative constant [i]. *)
Definition getitem (l : list Z) (i : nat) : result Z :=
  match nth_error l i with
  | Some v => Ok v
  | None => Err IndexError
  end.

(** Python's [range(n)]: empty when [n] is not positive. *)
Definition range (n : Z) : list nat := seq 0 (Z.to_nat n).

(** Python's [int(k / 2)]: true division, then truncation towards zero.
    The quotient is exact for every [k] a float represents exactly
    (|k| <= 2^53), which covers every kernel size. *)
Definition int_half (k : Z) : Z := Z.quot k 2.

(** ** The framework: layers *)

(** The [torch.nn] layers the source instantiates, by their
    hyper-parameters.  A batch normalisation layer also carries its
    [num_batches_tracked] buffer, which a forward pass in training mode
    increments. *)
Inductive Layer : Type :=
| Conv2d (in_channels out_channels kernel_size stride padding : Z)
| BatchNorm2d (num_features num_batches_tracked : Z)
| BatchNorm1d (num_features num_batches_tracked : Z)
| LeakyReLU
| Dropout (p : Q)
| Linear (in_features out_features : Z).

(** What a tensor type has to provide: the forward call of a single layer
    (given the module's [training] flag), [x.reshape(x.size(0), -1)], and the
    in-place addition [out += x]. *)
Class Tensor (T : Type) : Type := {
  layer_forward : bool -> Layer -> T -> Layer * result T;
  reshape_rows : T -> result T;
  iadd : T -> T -> result T
}.

(** [nn.Sequential.forward]: feed the input through the modules in order.
    A module that raises stops the pass; the modules before it keep the
    state their calls left. *)
Fixpoint Sequential_forward {L T} (fwd : L -> T -> L * result T)
  (modules : list L) (x : T) : list L * result T :=
  match modules with
  | [] => ([], Ok x)
  | m :: rest =>
      match fwd m x with
      | (m', Ok y) =>
          let (rest', r) := Sequential_forward fwd rest y in (m' :: rest', r)
      | (m', Err e) => (m' :: rest, Err e)
      end
  end.

(** ** The source *)

Definition Sequential : Type := list Layer.

Definition default {A} (d : A) (arg : option A) : A :=
  match arg with
  | Some a => a
  | None => d
  end.

(** [convbr(in_channels, out_channels, kernel_size = 3, stride = 1,
    padding = 0)]; [None] is an argument left to its default. *)
Definition convbr (in_channels out_channels : Z)
  (kernel_size stride padding : option Z) : Sequential :=
  let kernel_size := default 3 kernel_size in
  let stride := default 1 stride in
  let padding := default 0 padding in
  let conv :=
    [ Conv2d in_channels out_channels kernel_size stride padding;
      BatchNorm2d out_channels 0;
      LeakyReLU ] in
  conv.

(** [fcbrd(in_channels, out_channels, dropout = 0)]. *)
Definition fcbrd (in_channels out_channels : Z) (dropout : option Q)
  : Sequential :=
  let dropout := default 0%Q dropout in
  let fc :=
    [ Dropout dropout;
      Linear in_channels out_channels;
      BatchNorm1d out_channels 0;
      LeakyReLU ] in
  fc.

Module block.

Record t : Type := Build {
  conv1 : Sequential;
  conv2 : Sequential;
  conv3 : Sequential
}.

Definition conv1_ : attr t Sequential :=
  Attr conv1 (fun v self => Build v (conv2 self) (conv3 self)).
Definition conv2_ : attr t Sequential :=
  Attr conv2 (fun v self => Build (conv1 self) v (conv3 self)).
Definition conv3_ : attr t Sequential :=
  Attr conv3 (fun v self => Build (conv1 self) (conv2 self) v).

(** [block.__init__(self, channels, reduced, ksize)]. *)
Definition init (channels reduced ksize : Z) : t :=
  {| conv1 := convbr channels reduced (Some 1) None None;
     conv2 := convbr reduced reduced (Some ksize) None (Some (int_half ksize));
     conv3 := convbr reduced channels (Some 1) None None |}.

Section Forward.
Context {T : Type} `{Tensor T}.

(** [block.forward(self, x)]. *)
Definition forward (training : bool) (x : T) : M t T :=
  out <- call (Sequential_forward (layer_forward training)) conv1_ x ;;
  out <- call (Sequential_forward (layer_forward training)) conv2_ out ;;
  out <- call (Sequential_forward (layer_forward training)) conv3_ out ;;
  out <- lift (iadd out x) ;;
  ret out.

(** A block as a module of a [Sequential]. *)
Definition step (training : bool) (b : t) (x : T) : t * result T :=
  forward training x b.
End Forward.

End block.

Module FracNet.

(** The attributes of a [FracNet]: the [training] flag every [nn.Module]
    has, the four bookkeeping attributes, and the sixteen sub-modules. *)
Record t : Type := Build {
  training : bool;
  Accuracies : list (list Z);
  losses : list Q;
  total_epochs : Z;
  num_classes : Z;
  pool0 : Sequential;
  chunk0 : list block.t;
  pool1 : Sequential;
  chunk1 : list block.t;
  pool2 : Sequential;
  chunk2 : list block.t;
  pool3 : Sequential;
  chunk3 : list block.t;
  pool4 : Sequential;
  chunk4 : list block.t;
  pool5 : Sequential;
  chunk5 : list block.t;
  pool6 : Sequential;
  chunk6 : list block.t;
  fc0 : Sequential;
  fcout : Layer
}.

Definition pool0_ : attr t (Sequential) :=
  Attr pool0 (fun v self => Build (training self) (Accuracies self)
    (losses self) (total_epochs self) (num_classes self) v (chunk0 self)
    (pool1 self) (chunk1 self) (pool2 self) (chunk2 self) (pool3 self)
    (chunk3 self) (pool4 self) (chunk4 self) (pool5 self) (chunk5 self)
    (pool6 self) (chunk6 self) (fc0 self) (fcout self)).
Definition chunk0_ : attr t (list block.t) :=
  Attr chunk0 (fun v self => Build (training self) (Accuracies self)
    (losses self) (total_epochs self) (num_classes self) (pool0 self) v
    (pool1 self) (chunk1 self) (pool2 self) (chunk2 self) (pool3 self)
    (chunk3 self) (pool4 self) (chunk4 self) (pool5 self) (chunk5 self)
    (pool6 self) (chunk6 self) (fc0 self) (fcout self)).
Definition pool1_ : attr t (Sequential) :=
  Attr pool1 (fun v self => Build (training self) (Accuracies self)
    (losses self) (total_epochs self) (num_classes self) (pool0 self)
    (chunk0 self) v (chunk1 self) (pool2 self) (chunk2 self) (pool3
    self) (chunk3 self) (pool4 self) (chunk4 self) (pool5 self) (chunk5
    self) (pool6 self) (chunk6 self) (fc0 self) (fcout self)).
Definition chunk1_ : attr t (list block.t) :=
  Attr chunk1 (fun v self => Build (training self) (Accuracies self)
    (losses self) (total_epochs self) (num_classes self) (pool0 self)
    (chunk0 self) (pool1 self) v (pool2 self) (chunk2 self) (pool3 self)
    (chunk3 self) (pool4 self) (chunk4 self) (pool5 self) (chunk5 self)
    (pool6 self) (chunk6 self) (fc0 self) (fcout self)).
Definition pool2_ : attr t (Sequential) :=
  Attr pool2 (fun v self => Build (training self) (Accuracies self)
    (losses self) (total_epochs self) (num_classes self) (pool0 self)
    (chunk0 self) (pool1 self) (chunk1 self) v (chunk2 self) (pool3
    self) (chunk3 self) (pool4 self) (chunk4 self) (pool5 self) (chunk5
    self) (pool6 self) (chunk6 self) (fc0 self) (fcout self)).
Definition chunk2_ : attr t (list block.t) :=
  Attr chunk2 (fun v self => Build (training self) (Accuracies self)
    (losses self) (total_epochs self) (num_classes self) (pool0 self)
    (chunk0 self) (pool1 self) (chunk1 self) (pool2 self) v (pool3 self)
    (chunk3 self) (pool4 self) (chunk4 self) (pool5 self) (chunk5 self)
    (pool6 self) (chunk6 self) (fc0 self) (fcout self)).
Definition pool3_ : attr t (Sequential) :=
  Attr pool3 (fun v self => Build (training self) (Accuracies self)
    (losses self) (total_epochs self) (num_classes self) (pool0 self)
    (chunk0 self) (pool1 self) (chunk1 self) (pool2 self) (chunk2 self)
    v (chunk3 self) (pool4 self) (chunk4 self) (pool5 self) (chunk5
    self) (pool6 self) (chunk6 self) (fc0 self) (fcout self)).
Definition chunk3_ : attr t (list block.t) :=
  Attr chunk3 (fun v self => Build (training self) (Accuracies self)
    (losses self) (total_epochs self) (num_classes self) (pool0 self)
    (chunk0 self) (pool1 self) (chunk1 self) (pool2 self) (chunk2 self)
    (pool3 self) v (pool4 self) (chunk4 self) (pool5 self) (chunk5 self)
    (pool6 self) (chunk6 self) (fc0 self) (fcout self)).
Definition pool4_ : attr t (Sequential) :=
  Attr pool4 (fun v self => Build (training self) (Accuracies self)
    (losses self) (total_epochs self) (num_classes self) (pool0 self)
    (chunk0 self) (pool1 self) (chunk1 self) (pool2 self) (chunk2 self)
    (pool3 self) (chunk3 self) v (chunk4 self) (pool5 self) (chunk5
    self) (pool6 self) (chunk6 self) (fc0 self) (fcout self)).
Definition chunk4_ : attr t (list block.t) :=
  Attr chunk4 (fun v self => Build (training self) (Accuracies self)
    (losses self) (total_epochs self) (num_classes self) (pool0 self)
    (chunk0 self) (pool1 self) (chunk1 self) (pool2 self) (chunk2 self)
    (pool3 self) (chunk3 self) (pool4 self) v (pool5 self) (chunk5 self)
    (pool6 self) (chunk6 self) (fc0 self) (fcout self)).
Definition pool5_ : attr t (Sequential) :=
  Attr pool5 (fun v self => Build (training self) (Accuracies self)
    (losses self) (total_epochs self) (num_classes self) (pool0 self)
    (chunk0 self) (pool1 self) (chunk1 self) (pool2 self) (chunk2 self)
    (pool3 self) (chunk3 self) (pool4 self) (chunk4 self) v (chunk5
    self) (pool6 self) (chunk6 self) (fc0 self) (fcout self)).
Definition chunk5_ : attr t (list block.t) :=
  Attr chunk5 (fun v self => Build (training self) (Accuracies self)
    (losses self) (total_epochs self) (num_classes self) (pool0 self)
    (chunk0 self) (pool1 self) (chunk1 self) (pool2 self) (chunk2 self)
    (pool3 self) (chunk3 self) (pool4 self) (chunk4 self) (pool5 self) v
    (pool6 self) (chunk6 self) (fc0 self) (fcout self)).
Definition pool6_ : attr t (Sequential) :=
  Attr pool6 (fun v self => Build (training self) (Accuracies self)
    (losses self) (total_epochs self) (num_classes self) (pool0 self)
    (chunk0 self) (pool1 self) (chunk1 self) (pool2 self) (chunk2 self)
    (pool3 self) (chunk3 self) (pool4 self) (chunk4 self) (pool5 self)
    (chunk5 self) v (chunk6 self) (fc0 self) (fcout self)).
Definition chunk6_ : attr t (list block.t) :=
  Attr chunk6 (fun v self => Build (training self) (Accuracies self)
    (losses self) (total_epochs self) (num_classes self) (pool0 self)
    (chunk0 self) (pool1 self) (chunk1 self) (pool2 self) (chunk2 self)
    (pool3 self) (chunk3 self) (pool4 self) (chunk4 self) (pool5 self)
    (chunk5 self) (pool6 self) v (fc0 self) (fcout self)).
Definition fc0_ : attr t (Sequential) :=
  Attr fc0 (fun v self => Build (training self) (Accuracies self)
    (losses self) (total_epochs self) (num_classes self) (pool0 self)
    (chunk0 self) (pool1 self) (chunk1 self) (pool2 self) (chunk2 self)
    (pool3 self) (chunk3 self) (pool4 self) (chunk4 self) (pool5 self)
    (chunk5 self) (pool6 self) (chunk6 self) v (fcout self)).
Definition fcout_ : attr t (Layer) :=
  Attr fcout (fun v self => Build (training self) (Accuracies self)
    (losses self) (total_epochs self) (num_classes self) (pool0 self)
    (chunk0 self) (pool1 self) (chunk1 self) (pool2 self) (chunk2 self)
    (pool3 self) (chunk3 self) (pool4 self) (chunk4 self) (pool5 self)
    (chunk5 self) (pool6 self) (chunk6 self) (fc0 self) v).

(** [FracNet.make_chunk(self, channels, chunks, reduced, ksize)]: the loop
    appends one block per iteration; the result is
    [nn.Sequential( *layers )]. *)
Definition make_chunk (channels chunks reduced ksize : Z) : list block.t :=
  let layers := [] in
  let layers :=
    fold_left (fun layers (_ : nat) =>
                 layers ++ [block.init channels reduced ksize])
              (range chunks) layers in
  layers.

(** The two literal lists of [__init__], read at constant indices. *)
Definition num_maps : list Z := [8; 16; 32; 64; 128; 256; 512].
Definition reduce_maps : list Z := [8; 16; 16; 32; 32; 64; 128].
Notation "l .[ i ]" := (nth i l 0) (at level 1, format "l .[ i ]").

(** [FracNet.__init__(self, num_classes, dropout, chunks, ksize, psize)].
    Reading a list argument past its end raises. *)
Definition init (num_classes : Z) (dropout : Q) (chunks ksize psize : list Z)
  : result t :=
  let! p0 := getitem psize 0 in
  let pool0 := convbr 1 num_maps.[0] (Some p0) (Some 2) (Some 0) in
  let! c0 := getitem chunks 0 in
  let! k0 := getitem ksize 0 in
  let chunk0 := make_chunk num_maps.[0] c0 reduce_maps.[0] k0 in
  let! p1 := getitem psize 1 in
  let pool1 := convbr num_maps.[0] num_maps.[1] (Some p1) (Some 2) (Some 0) in
  let! c1 := getitem chunks 1 in
  let! k1 := getitem ksize 1 in
  let chunk1 := make_chunk num_maps.[1] c1 reduce_maps.[1] k1 in
  let! p2 := getitem psize 2 in
  let pool2 := convbr num_maps.[1] num_maps.[2] (Some p2) (Some 2) (Some 0) in
  let! c2 := getitem chunks 2 in
  let! k2 := getitem ksize 2 in
  let chunk2 := make_chunk num_maps.[2] c2 reduce_maps.[2] k2 in
  let! p3 := getitem psize 3 in
  let pool3 := convbr num_maps.[2] num_maps.[3] (Some p3) (Some 2) (Some 0) in
  let! c3 := getitem chunks 3 in
  let! k3 := getitem ksize 3 in
  let chunk3 := make_chunk num_maps.[3] c3 reduce_maps.[3] k3 in
  let! p4 := getitem psize 4 in
  let pool4 := convbr num_maps.[3] num_maps.[4] (Some p4) (Some 2) (Some 0) in
  let! c4 := getitem chunks 4 in
  let! k4 := getitem ksize 4 in
  let chunk4 := make_chunk num_maps.[4] c4 reduce_maps.[4] k4 in
  let! p5 := getitem psize 5 in
  let pool5 := convbr num_maps.[4] num_maps.[5] (Some p5) (Some 2) (Some 0) in
  let! c5 := getitem chunks 5 in
  let! k5 := getitem ksize 5 in
  let chunk5 := make_chunk num_maps.[5] c5 reduce_maps.[5] k5 in
  let! p6 := getitem psize 6 in
  let pool6 := convbr num_maps.[5] num_maps.[6] (Some p6) (Some 2) (Some 0) in
  let! c6 := getitem chunks 6 in
  let! k6 := getitem ksize 6 in
  let chunk6 := make_chunk num_maps.[6] c6 reduce_maps.[6] k6 in
  let fc0 := fcbrd (num_maps.[6] * 3 * 3) 1000 (Some dropout) in
  let fcout := Linear 1000 num_classes in
  Ok {| training := true;
        Accuracies := [[0]; [0]; [0]; [0]; [0]];
        losses := [];
        total_epochs := 0;
        num_classes := num_classes;
        pool0 := pool0; chunk0 := chunk0;
        pool1 := pool1; chunk1 := chunk1;
        pool2 := pool2; chunk2 := chunk2;
        pool3 := pool3; chunk3 := chunk3;
        pool4 := pool4; chunk4 := chunk4;
        pool5 := pool5; chunk5 := chunk5;
        pool6 := pool6; chunk6 := chunk6;
        fc0 := fc0; fcout := fcout |}.

(** [nn.Module.train(mode)] / [eval()]: only the flag changes. *)
Definition train (mode : bool) (self : t) : t :=
  Build mode (Accuracies self) (losses self) (total_epochs self)
    (num_classes self) (pool0 self) (chunk0 self) (pool1 self)
    (chunk1 self) (pool2 self) (chunk2 self) (pool3 self) (chunk3 self)
    (pool4 self) (chunk4 self) (pool5 self) (chunk5 self) (pool6 self)
    (chunk6 self) (fc0 self) (fcout self).

Section Forward.
Context {T : Type} `{Tensor T}.

(** Calling a [convbr]/[fcbrd] attribute, a chunk attribute, a single
    layer attribute. *)
Definition call_seq (training : bool) :=
  call (S := t) (Sequential_forward (layer_forward training)).
Definition call_chunk (training : bool) :=
  call (S := t) (Sequential_forward (block.step training)).
Definition call_layer (training : bool) :=
  call (S := t) (layer_forward training).

(** [FracNet.forward(self, x)]. *)
Definition forward (x : T) : M t T :=
  fun self =>
    let training := training self in
    (out <- call_seq training pool0_ x ;;
     out <- call_chunk training chunk0_ out ;;

     out <- call_seq training pool1_ out ;;
     out <- call_chunk training chunk1_ out ;;

     out <- call_seq training pool2_ out ;;
     out <- call_chunk training chunk2_ out ;;

     out <- call_seq training pool3_ out ;;
     out <- call_chunk training chunk3_ out ;;

     out <- call_seq training pool4_ out ;;
     out <- call_chunk training chunk4_ out ;;

     out <- call_seq training pool5_ out ;;
     out <- call_chunk training chunk5_ out ;;

     out <- call_seq training pool6_ out ;;
     out <- call_chunk training chunk6_ out ;;

     out <- lift (reshape_rows out) ;;

     out <- call_seq training fc0_ out ;;
     out <- call_layer training fcout_ out ;;
     ret out) self.

(** The operations a forward pass can be made of, and the pass as a list
    of them: seven times a pooling stage and its chunk, the reshape, [fc0],
    [fcout]. *)
Inductive op : Type :=
| OpSeq (a : attr t Sequential)
| OpChunk (a : attr t (list block.t))
| OpReshape
| OpLayer (a : attr t Layer).

Definition run_op (training : bool) (o : op) (x : T) : M t T :=
  match o with
  | OpSeq a => call_seq training a x
  | OpChunk a => call_chunk training a x
  | OpReshape => lift (reshape_rows x)
  | OpLayer a => call_layer training a x
  end.

Fixpoint run_ops (training : bool) (os : list op) (x : T) : M t T :=
  match os with
  | [] => ret x
  | o :: os' => out <- run_op training o x ;; run_ops training os' out
  end.

Definition stage_ops : list op :=
  [ OpSeq pool0_; OpChunk chunk0_;
    OpSeq pool1_; OpChunk chunk1_;
    OpSeq pool2_; OpChunk chunk2_;
    OpSeq pool3_; OpChunk chunk3_;
    OpSeq pool4_; OpChunk chunk4_;
    OpSeq pool5_; OpChunk chunk5_;
    OpSeq pool6_; OpChunk chunk6_ ].

Definition forward_ops : list op :=
  stage_ops ++ [ OpReshape; OpSeq fc0_; OpLayer fcout_ ].
End Forward.

End FracNet.

(** ** The framework on shapes *)

(** A tensor seen through its shape: the list of its dimension sizes.  The
    rules below are the framework's documented shape rules for the layers
    and operations used by the source. *)
Module Shape.

Definition shape : Type := list Z.

Definition numel (s : shape) : Z := fold_right Z.mul 1 s.

(** Output size of a convolution along one spatial dimension (dilation 1):
    floor((size + 2 * padding - kernel_size) / stride) + 1. *)
Definition conv_out (size kernel_size stride padding : Z) : Z :=
  (size + 2 * padding - kernel_size) / stride + 1.

(** A convolution over a batch of maps.  An input of another rank does not
    get through a [convbr]: the convolution, or the batch normalisation
    after it, rejects it. *)
Definition conv2d (in_channels out_channels kernel_size stride padding : Z)
  (x : shape) : result shape :=
  if negb ((0 <? kernel_size) && (0 <? stride) && (0 <=? padding))
  then Err BadHyperparameter
  else
    match x with
    | [n; c; h; w] =>
        if negb (c =? in_channels) then Err (ShapeError ChannelMismatch)
        else if (h + 2 * padding <? kernel_size)
                || (w + 2 * padding <? kernel_size)
        then Err (ShapeError KernelExceedsInput)
        else Ok [n; out_channels;
                 conv_out h kernel_size stride padding;
                 conv_out w kernel_size stride padding]
    | _ => Err (ShapeError RankMismatch)
    end.

(** The number of values a batch normalisation sees per channel:
    [size[0] * prod(size[2:])]. *)
Definition values_per_channel (x : shape) : Z :=
  match x with
  | n :: _ :: spatial => n * numel spatial
  | _ => 0
  end.

(** Batch normalisation over inputs of one of the ranks in [ranks].  The
    rank is checked first; in training mode the batch counter is then
    incremented before the statistics are computed, so a later complaint
    leaves the increment behind. *)
Definition batch_norm (ranks : list nat) (rebuild : Z -> Layer)
  (training : bool) (num_features num_batches_tracked : Z) (x : shape)
  : Layer * result shape :=
  if negb (existsb (Nat.eqb (length x)) ranks)
  then (rebuild num_batches_tracked, Err (ShapeError RankMismatch))
  else
    let tracked :=
      if training then num_batches_tracked + 1 else num_batches_tracked in
    if training && (values_per_channel x =? 1)
    then (rebuild tracked, Err (ShapeError TooFewValues))
    else if negb (nth 1 x 0 =? num_features)
    then (rebuild tracked, Err (ShapeError ChannelMismatch))
    else (rebuild tracked, Ok x).

(** A linear layer acts on the last dimension. *)
Definition linear (in_features out_features : Z) (x : shape) : result shape :=
  match rev x with
  | [] => Err (ShapeError RankMismatch)
  | f :: batch_dims =>
      if f =? in_features then Ok (rev (out_features :: batch_dims))
      else Err (ShapeError FeatureMismatch)
  end.

Definition layer_forward (training : bool) (l : Layer) (x : shape)
  : Layer * result shape :=
  match l with
  | Conv2d i o k s p => (l, conv2d i o k s p x)
  | BatchNorm2d f t => batch_norm [4%nat] (BatchNorm2d f) training f t x
  | BatchNorm1d f t => batch_norm [2%nat; 3%nat] (BatchNorm1d f) training f t x
  | LeakyReLU => (l, Ok x)
  | Dropout _ => (l, Ok x)
  | Linear i o => (l, linear i o x)
  end.

(** [x.reshape(x.size(0), -1)]. *)
Definition reshape_rows (x : shape) : result shape :=
  match x with
  | [] => Err (ShapeError RankMismatch)
  | n :: rest =>
      if n =? 0 then Err (ShapeError AmbiguousReshape)
      else Ok [n; numel rest]
  end.

(** Whether [x] broadcasts to [out], both given last dimension first. *)
Fixpoint broadcasts_to (out x : list Z) : bool :=
  match x, out with
  | [], _ => true
  | _ :: _, [] => false
  | xd :: x', od :: out' =>
      ((xd =? od) || (xd =? 1)) && broadcasts_to out' x'
  end.

(** [out += x]: the result keeps the shape of [out], so [x] has to
    broadcast to it. *)
Definition iadd (out x : shape) : result shape :=
  if broadcasts_to (rev out) (rev x) then Ok out
  else Err (ShapeError BroadcastMismatch).

#[global] Instance tensor : Tensor shape :=
  Build_Tensor layer_forward reshape_rows iadd.
End Shape.

(** The value a call returns, without the state it leaves behind. *)
Definition seq_result {T} `{Tensor T} (training : bool) (modules : Sequential)
  (x : T) : result T :=
  snd (Sequential_forward (layer_forward training) modules x).

Definition block_result {T} `{Tensor T} (training : bool) (b : block.t) (x : T)
  : result T :=
  snd (block.forward training x b).

Definition chunk_result {T} `{Tensor T} (training : bool)
  (blocks : list block.t) (x : T) : result T :=
  snd (Sequential_forward (block.step training) blocks x).

Definition forward_result {T} `{Tensor T} (self : FracNet.t) (x : T)
  : result T :=
  snd (FracNet.forward x self).

(** The sub-modules of a network in the order of the stages. *)
Definition pools (m : FracNet.t) : list Sequential :=
  [ FracNet.pool0 m; FracNet.pool1 m; FracNet.pool2 m; FracNet.pool3 m;
    FracNet.pool4 m; FracNet.pool5 m; FracNet.pool6 m ].

Definition chunks_of (m : FracNet.t) : list (list block.t) :=
  [ FracNet.chunk0 m; FracNet.chunk1 m; FracNet.chunk2 m; FracNet.chunk3 m;
    FracNet.chunk4 m; FracNet.chunk5 m; FracNet.chunk6 m ].

(** The bookkeeping attributes of two network states agree. *)
Definition same_bookkeeping (m m' : FracNet.t) : Prop :=
  FracNet.Accuracies m' = FracNet.Accuracies m /\
  FracNet.losses m' = FracNet.losses m /\
  FracNet.total_epochs m' = FracNet.total_epochs m /\
  FracNet.num_classes m' = FracNet.num_classes m.

(** A computation, or an attribute assignment, that leaves the bookkeeping
    attributes alone. *)
Definition keeps_bookkeeping {A} (c : M FracNet.t A) : Prop :=
  forall self, same_bookkeeping self (fst (c self)).

Definition attr_keeps_bookkeeping {A} (a : attr FracNet.t A) : Prop :=
  forall v self, same_bookkeeping self (set a v self).

Definition op_keeps_bookkeeping (o : FracNet.op) : Prop :=
  match o with
  | FracNet.OpSeq a => attr_keeps_bookkeeping a
  | FracNet.OpChunk a => attr_keeps_bookkeeping a
  | FracNet.OpReshape => True
  | FracNet.OpLayer a => attr_keeps_bookkeeping a
  end.

(** The hyper-parameters of a layer are ones the framework runs a
    convolution with: positive kernel and stride, non-negative padding. *)
Definition well_formed (l : Layer) : bool :=
  match l with
  | Conv2d _ _ k s p => (0 <? k) && (0 <? s) && (0 <=? p)
  | _ => true
  end.

Definition block_well_formed (b : block.t) : bool :=
  forallb well_formed (block.conv1 b)
  && forallb well_formed (block.conv2 b)
  && forallb well_formed (block.conv3 b).

Definition net_well_formed (m : FracNet.t) : bool :=
  forallb (forallb well_formed) (pools m)
  && forallb (forallb block_well_formed) (chunks_of m)
  && forallb well_formed (FracNet.fc0 m)
  && well_formed (FracNet.fcout m).

(** The spatial sizes left by a tower of stride-2, zero-padding
    convolutions with the kernels [psize], from an input of size [size]. *)
Fixpoint spatial_sizes (size : Z) (psize : list Z) : list Z :=
  match psize with
  | [] => []
  | k :: rest =>
      let size' := Shape.conv_out size k 2 0 in
      size' :: spatial_sizes size' rest
  end.

(** A layer with its buffer as at construction, and the architecture of a
    network: its sub-modules up to the buffers a forward pass updates. *)
Definition fresh (l : Layer) : Layer :=
  match l with
  | BatchNorm2d f _ => BatchNorm2d f 0
  | BatchNorm1d f _ => BatchNorm1d f 0
  | _ => l
  end.

Definition fresh_block (b : block.t) : block.t :=
  block.Build (map fresh (block.conv1 b)) (map fresh (block.conv2 b))
              (map fresh (block.conv3 b)).

Definition architecture (m : FracNet.t)
  : list Sequential * list (list block.t) * Sequential * Layer :=
  (map (map fresh) (pools m), map (map fresh_block) (chunks_of m),
   map fresh (FracNet.fc0 m), fresh (FracNet.fcout m)).

(** What a tower of stride-2, zero-padding convolutions leaves of one
    spatial dimension: nothing when a kernel is larger than what reaches
    it. *)
Fixpoint tower (psize : list Z) (size : Z) : option Z :=
  match psize with
  | [] => Some size
  | k :: rest =>
      if size <? k then None
      else tower rest (Shape.conv_out size k 2 0)
  end.

(** The image sizes from which the tower with the kernels
    [10, 10, 8, 8, 4, 4, 2] leaves 3x3, 1x9 or 9x1 maps. *)
Definition accepted (h w : Z) : bool :=
  ((576 <=? h) && (h <=? 703) && (576 <=? w) && (w <=? 703))
  || ((320 <=? h) && (h <=? 447) && (1344 <=? w) && (w <=? 1471))
  || ((1344 <=? h) && (h <=? 1471) && (320 <=? w) && (w <=? 447)).

(** A four-dimensional shape with [c] channels and maps of at most 2x2. *)
Definition small (c : Z) (x : Shape.shape) : Prop :=
  exists n h w, x = [n; c; h; w] /\ 1 <= h <= 2 /\ 1 <= w <= 2.

(** * Properties *)

(** ** The two primitives *)

(** C5: [convbr] is Conv2d, BatchNorm2d, LeakyReLU in that order, with
    defaults kernel_size = 3, stride = 1, padding = 0; [fcbrd] is Dropout,
    Linear, BatchNorm1d, LeakyReLU in that order, with default dropout
    probability 0. *)
Theorem convbr_fcbrd_composition :
  (forall i o k s p,
      convbr i o (Some k) (Some s) (Some p)
      = [Conv2d i o k s p; BatchNorm2d o 0; LeakyReLU]) /\
  (forall i o, convbr i o None None None
               = [Conv2d i o 3 1 0; BatchNorm2d o 0; LeakyReLU]) /\
  (forall i o k s p,
      convbr i o k s p
      = convbr i o (Some (default 3 k)) (Some (default 1 s))
                   (Some (default 0 p))) /\
  (forall i o d,
      fcbrd i o (Some d)
      = [Dropout d; Linear i o; BatchNorm1d o 0; LeakyReLU]) /\
  (forall i o,
      fcbrd i o None
      = [Dropout 0%Q; Linear i o; BatchNorm1d o 0; LeakyReLU]).
Proof.
  repeat split; intros; reflexivity.
Qed.

(** ** The residual block *)

Section AnyTensor.
Context {T : Type} `{Tensor T}.

Lemma block_forward_result (training : bool) (b : block.t) (x : T) :
  block_result training b x
  = let! out := seq_result training (block.conv1 b) x in
    let! out := seq_result training (block.conv2 b) out in
    let! out := seq_result training (block.conv3 b) out in
    iadd out x.
Proof.
  unfold block_result, block.forward, seq_result, bind, call, lift, ret.
  destruct b as [c1 c2 c3]; simpl.
  destruct (Sequential_forward _ c1 x) as [c1' [o1 | e]]; simpl; trivial.
  destruct (Sequential_forward _ c2 o1) as [c2' [o2 | e]]; simpl; trivial.
  destruct (Sequential_forward _ c3 o2) as [c3' [o3 | e]]; simpl; trivial.
  destruct (iadd o3 x); reflexivity.
Qed.

(** C3: a block is a 1x1 convolution from [channels] to [reduced], a
    ksize x ksize convolution at width [reduced] with padding int(ksize/2),
    and a 1x1 convolution back to [channels]; its forward pass returns
    conv3(conv2(conv1(x))) + x, whatever the tensors are. *)
Theorem block_forward_residual (channels reduced ksize : Z)
  (training : bool) (x : T) :
  let b := block.init channels reduced ksize in
  block.conv1 b
  = [Conv2d channels reduced 1 1 0; BatchNorm2d reduced 0; LeakyReLU] /\
  block.conv2 b
  = [Conv2d reduced reduced ksize 1 (int_half ksize);
     BatchNorm2d reduced 0; LeakyReLU] /\
  block.conv3 b
  = [Conv2d reduced channels 1 1 0; BatchNorm2d channels 0; LeakyReLU] /\
  block_result training b x
  = let! out1 := seq_result training (block.conv1 b) x in
    let! out2 := seq_result training (block.conv2 b) out1 in
    let! out3 := seq_result training (block.conv3 b) out2 in
    iadd out3 x.
Proof.
  intro b. repeat split. apply block_forward_result.
Qed.

(** ** The forward pass *)

(** C1: the forward pass is the fixed list of operations pool0, chunk0,
    ..., pool6, chunk6, reshape, fc0, fcout, run in that order; the list
    does not depend on the input or on the network. *)
Lemma forward_run_ops (self : FracNet.t) (x : T) :
  FracNet.forward x self
  = FracNet.run_ops (FracNet.training self) FracNet.forward_ops x self.
Proof.
  unfold FracNet.forward, FracNet.forward_ops, FracNet.stage_ops.
  cbn [app FracNet.run_ops FracNet.run_op].
  reflexivity.
Qed.

Theorem forward_fixed_sequence (self : FracNet.t) (x : T) :
  FracNet.forward x self
  = FracNet.run_ops (FracNet.training self) FracNet.forward_ops x self /\
  FracNet.forward_ops
  = [ FracNet.OpSeq FracNet.pool0_; FracNet.OpChunk FracNet.chunk0_;
      FracNet.OpSeq FracNet.pool1_; FracNet.OpChunk FracNet.chunk1_;
      FracNet.OpSeq FracNet.pool2_; FracNet.OpChunk FracNet.chunk2_;
      FracNet.OpSeq FracNet.pool3_; FracNet.OpChunk FracNet.chunk3_;
      FracNet.OpSeq FracNet.pool4_; FracNet.OpChunk FracNet.chunk4_;
      FracNet.OpSeq FracNet.pool5_; FracNet.OpChunk FracNet.chunk5_;
      FracNet.OpSeq FracNet.pool6_; FracNet.OpChunk FracNet.chunk6_;
      FracNet.OpReshape;
      FracNet.OpSeq FracNet.fc0_; FracNet.OpLayer FracNet.fcout_ ].
Proof.
  split; [apply forward_run_ops | reflexivity].
Qed.

(** ** What a forward pass leaves untouched *)

Lemma same_bookkeeping_refl (m : FracNet.t) : same_bookkeeping m m.
Proof. repeat split. Qed.

Lemma same_bookkeeping_trans (m1 m2 m3 : FracNet.t) :
  same_bookkeeping m1 m2 -> same_bookkeeping m2 m3 -> same_bookkeeping m1 m3.
Proof.
  unfold same_bookkeeping.
  intros (a1 & l1 & e1 & n1) (a2 & l2 & e2 & n2).
  repeat split; congruence.
Qed.

Lemma keeps_ret {A} (a : A) : keeps_bookkeeping (ret a).
Proof. intro self. apply same_bookkeeping_refl. Qed.

Lemma keeps_lift {A} (r : result A) : keeps_bookkeeping (lift r).
Proof. intro self. apply same_bookkeeping_refl. Qed.

Lemma keeps_bind {A B} (c : M FracNet.t A) (k : A -> M FracNet.t B) :
  keeps_bookkeeping c -> (forall a, keeps_bookkeeping (k a)) ->
  keeps_bookkeeping (bind c k).
Proof.
  intros Hc Hk self. unfold bind.
  specialize (Hc self).
  destruct (c self) as [self' [a | e]]; simpl in *; trivial.
  eapply same_bookkeeping_trans; [exact Hc | apply Hk].
Qed.

Lemma keeps_call {L} (fwd : L -> T -> L * result T) (a : attr FracNet.t L)
  (x : T) :
  attr_keeps_bookkeeping a -> keeps_bookkeeping (call fwd a x).
Proof.
  intros Ha self. unfold call.
  destruct (fwd (get a self) x) as [l r]. apply Ha.
Qed.

Lemma keeps_run_op (training : bool) (o : FracNet.op) (x : T) :
  op_keeps_bookkeeping o -> keeps_bookkeeping (FracNet.run_op training o x).
Proof.
  destruct o; simpl; intro Ho;
    solve [apply keeps_call; exact Ho | apply keeps_lift].
Qed.

Lemma keeps_run_ops (training : bool) (os : list FracNet.op) :
  Forall op_keeps_bookkeeping os ->
  forall x, keeps_bookkeeping (FracNet.run_ops training os x).
Proof.
  induction 1 as [| o os Ho _ IH]; intro x; simpl.
  - apply keeps_ret.
  - apply keeps_bind; [apply keeps_run_op; exact Ho | exact IH].
Qed.

Lemma forward_ops_keep : Forall op_keeps_bookkeeping FracNet.forward_ops.
Proof.
  unfold FracNet.forward_ops, FracNet.stage_ops; simpl.
  repeat constructor.
Qed.

(** C8: a forward pass, whether it returns or raises, leaves Accuracies,
    losses, total_epochs and num_classes as they were. *)
Theorem forward_frame (m : FracNet.t) (x : T) :
  let m' := fst (FracNet.forward x m) in
  FracNet.Accuracies m' = FracNet.Accuracies m /\
  FracNet.losses m' = FracNet.losses m /\
  FracNet.total_epochs m' = FracNet.total_epochs m /\
  FracNet.num_classes m' = FracNet.num_classes m.
Proof.
  rewrite forward_run_ops.
  apply (keeps_run_ops (FracNet.training m) forward_ops_keep x m).
Qed.
End AnyTensor.

(** The pass is not the identity on the network: in training mode it
    advances the batch counters of the normalisation layers. *)
Lemma forward_updates_buffers :
  exists m,
    FracNet.init 4 0%Q [1; 2; 0; 1; 0; 1; 2] [3; 5; 3; 7; 1; 3; 3]
                 [10; 10; 8; 8; 4; 4; 2] = Ok m /\
    FracNet.pool0 m = [Conv2d 1 8 10 2 0; BatchNorm2d 8 0; LeakyReLU] /\
    FracNet.pool0 (fst (FracNet.forward [2; 1; 640; 640] m))
    = [Conv2d 1 8 10 2 0; BatchNorm2d 8 1; LeakyReLU].
Proof.
  eexists. repeat split.
Qed.

(** ** Construction *)

Lemma append_loop {A} (b : A) (l : list nat) (acc : list A) :
  fold_left (fun layers (_ : nat) => layers ++ [b]) l acc
  = acc ++ repeat b (length l).
Proof.
  revert acc. induction l as [| i l IH]; intro acc; simpl.
  - symmetry. apply app_nil_r.
  - rewrite IH, <- app_assoc. reflexivity.
Qed.

Lemma make_chunk_repeat (channels chunks reduced ksize : Z) :
  FracNet.make_chunk channels chunks reduced ksize
  = repeat (block.init channels reduced ksize) (Z.to_nat chunks).
Proof.
  unfold FracNet.make_chunk, range.
  rewrite append_loop, length_seq. reflexivity.
Qed.

(** C10: for n >= 0, [make_chunk] returns exactly n modules, each equal to
    block(channels, reduced, ksize); for n = 0 the chunk is empty, an empty
    Sequential returns its input, and a pooling stage followed by the empty
    chunk returns what the pooling stage returns. *)
Theorem make_chunk_blocks (channels n reduced ksize : Z) :
  0 <= n ->
  let chunk := FracNet.make_chunk channels n reduced ksize in
  Z.of_nat (length chunk) = n /\
  Forall (fun b => b = block.init channels reduced ksize) chunk /\
  (n = 0 ->
   chunk = [] /\
   forall (T : Type) (tensor : Tensor T) (training : bool) (x : T),
     Sequential_forward (block.step training) chunk x = ([], Ok x) /\
     forall pool : Sequential,
       (let! out := seq_result training pool x in
        chunk_result training chunk out)
       = seq_result training pool x).
Proof.
  intros Hn chunk. subst chunk. rewrite make_chunk_repeat.
  split; [| split].
  - rewrite repeat_length. apply Z2Nat.id, Hn.
  - apply Forall_forall. intros b Hb. apply repeat_spec in Hb. exact Hb.
  - intros ->. simpl. split; [reflexivity |].
    intros T tensor training x. split; [reflexivity |].
    intro pool. unfold chunk_result. simpl.
    destruct (seq_result training pool x); reflexivity.
Qed.

Lemma make_chunk_blocks_witness :
  Z.of_nat (length (FracNet.make_chunk 8 2 8 3)) = 2 /\
  Forall (fun b => b = block.init 8 8 3) (FracNet.make_chunk 8 2 8 3).
Proof.
  pose proof (make_chunk_blocks 8 8 3 (n := 2) ltac:(lia)) as (Hlen & Hall & _).
  split; [exact Hlen | exact Hall].
Defined.

Lemma getitem_nth (l : list Z) (i : nat) (v : Z) :
  getitem l i = Ok v -> nth i l 0 = v /\ (i < length l)%nat.
Proof.
  unfold getitem. destruct (nth_error l i) as [w |] eqn:E; [| discriminate].
  intros [= <-]. split.
  - apply nth_error_nth, E.
  - apply nth_error_Some. congruence.
Qed.


(** One argument read of the constructor succeeded. *)
Ltac read_argument H :=
  match type of H with
  | match getitem ?l ?i with Ok _ => _ | Err _ => _ end = Ok _ =>
      let v := fresh "v" in
      let E := fresh "E" in
      destruct (getitem l i) as [v |] eqn:E; [| discriminate H];
      apply getitem_nth in E; destruct E as [<- ?];
      cbv beta iota in H
  end.

(** The network the constructor builds, attribute by attribute. *)
Lemma init_inversion (num_classes : Z) (dropout : Q)
  (chunks ksize psize : list Z) (m : FracNet.t) :
  FracNet.init num_classes dropout chunks ksize psize = Ok m ->
  let stage i :=
    (convbr (nth i (1 :: FracNet.num_maps) 0) (nth i FracNet.num_maps 0)
            (Some (nth i psize 0)) (Some 2) (Some 0),
     FracNet.make_chunk (nth i FracNet.num_maps 0) (nth i chunks 0)
                        (nth i FracNet.reduce_maps 0) (nth i ksize 0)) in
  m = FracNet.Build true [[0]; [0]; [0]; [0]; [0]] [] 0 num_classes
        (fst (stage 0%nat)) (snd (stage 0%nat))
        (fst (stage 1%nat)) (snd (stage 1%nat))
        (fst (stage 2%nat)) (snd (stage 2%nat))
        (fst (stage 3%nat)) (snd (stage 3%nat))
        (fst (stage 4%nat)) (snd (stage 4%nat))
        (fst (stage 5%nat)) (snd (stage 5%nat))
        (fst (stage 6%nat)) (snd (stage 6%nat))
        (fcbrd 4608 1000 (Some dropout)) (Linear 1000 num_classes) /\
  (7 <= length chunks)%nat /\ (7 <= length ksize)%nat /\
  (7 <= length psize)%nat.
Proof.
  intros H stage. unfold FracNet.init in H.
  cbv beta iota zeta delta [rbind] in H.
  repeat read_argument H.
  injection H as <-.
  split; [reflexivity | lia].
Qed.


(** C7: construction is a function of its arguments, and whatever the
    arguments are, stage i is the pooling convolution into the fixed width
    [8, 16, 32, 64, 128, 256, 512][i] with kernel psize[i], stride 2 and
    padding 0, followed by chunks[i] blocks of that width, of reduced width
    [8, 16, 16, 32, 32, 64, 128][i] and kernel ksize[i]; then fc0 and
    fcout. *)
Theorem init_deterministic (num_classes : Z) (dropout : Q)
  (chunks ksize psize : list Z) (m : FracNet.t) :
  FracNet.init num_classes dropout chunks ksize psize = Ok m ->
  (forall m',
      FracNet.init num_classes dropout chunks ksize psize = Ok m' -> m' = m) /\
  FracNet.num_maps = [8; 16; 32; 64; 128; 256; 512] /\
  FracNet.reduce_maps = [8; 16; 16; 32; 32; 64; 128] /\
  (forall i, (i < 7)%nat ->
     nth i (pools m) []
     = [ Conv2d (nth i (1 :: FracNet.num_maps) 0) (nth i FracNet.num_maps 0)
                (nth i psize 0) 2 0;
         BatchNorm2d (nth i FracNet.num_maps 0) 0;
         LeakyReLU ] /\
     nth i (chunks_of m) []
     = repeat (block.init (nth i FracNet.num_maps 0)
                          (nth i FracNet.reduce_maps 0) (nth i ksize 0))
              (Z.to_nat (nth i chunks 0))) /\
  FracNet.fc0 m
  = [Dropout dropout; Linear 4608 1000; BatchNorm1d 1000 0; LeakyReLU] /\
  FracNet.fcout m = Linear 1000 num_classes.
Proof.
  intro Hm. split; [| split; [| split; [| split; [| split]]]];
    try reflexivity.
  - intros m' Hm'. congruence.
  - apply init_inversion in Hm. destruct Hm as [-> _].
    intros i Hi.
    do 7 (destruct i as [| i];
          [split; [reflexivity | apply make_chunk_repeat] |]).
    lia.
  - apply init_inversion in Hm. destruct Hm as [-> _]. reflexivity.
  - apply init_inversion in Hm. destruct Hm as [-> _]. reflexivity.
Qed.

Lemma init_deterministic_witness :
  exists m,
    FracNet.init 4 0%Q [1; 2; 0; 1; 0; 1; 2] [3; 5; 3; 7; 1; 3; 3]
                 [10; 10; 8; 8; 4; 4; 2] = Ok m /\
    FracNet.fcout m = Linear 1000 4.
Proof.
  eexists. split; [reflexivity |].
  apply (init_deterministic 4 0%Q [1; 2; 0; 1; 0; 1; 2] [3; 5; 3; 7; 1; 3; 3]
           [10; 10; 8; 8; 4; 4; 2] eq_refl).
Defined.

(** ** The value of a forward pass *)

Section ForwardResult.
Context {T : Type} `{Tensor T}.

(** One step of the pass: taking the case of a sub-module call. *)
Ltac next_call :=
  match goal with
  | |- context [Sequential_forward ?f ?l ?x] =>
      destruct (Sequential_forward f l x) as [? [? | ?]]; cbn; trivial
  | |- context [reshape_rows ?x] =>
      destruct (reshape_rows x); cbn; trivial
  end.

(** The value returned by [forward] is the composition of the values the
    sub-modules return: no call reads what an earlier call wrote. *)
Lemma forward_result_stages (self : FracNet.t) (x : T) :
  forward_result self x
  = let training := FracNet.training self in
    let! out := seq_result training (FracNet.pool0 self) x in
    let! out := chunk_result training (FracNet.chunk0 self) out in
    let! out := seq_result training (FracNet.pool1 self) out in
    let! out := chunk_result training (FracNet.chunk1 self) out in
    let! out := seq_result training (FracNet.pool2 self) out in
    let! out := chunk_result training (FracNet.chunk2 self) out in
    let! out := seq_result training (FracNet.pool3 self) out in
    let! out := chunk_result training (FracNet.chunk3 self) out in
    let! out := seq_result training (FracNet.pool4 self) out in
    let! out := chunk_result training (FracNet.chunk4 self) out in
    let! out := seq_result training (FracNet.pool5 self) out in
    let! out := chunk_result training (FracNet.chunk5 self) out in
    let! out := seq_result training (FracNet.pool6 self) out in
    let! out := chunk_result training (FracNet.chunk6 self) out in
    let! out := reshape_rows out in
    let! out := seq_result training (FracNet.fc0 self) out in
    snd (layer_forward training (FracNet.fcout self) out).
Proof.
  destruct self.
  unfold forward_result, FracNet.forward, seq_result, chunk_result,
    FracNet.call_seq, FracNet.call_chunk, FracNet.call_layer,
    bind, call, lift, ret.
  cbn.
  do 16 next_call.
  match goal with
  | |- context [layer_forward ?tr ?l ?x] =>
      destruct (layer_forward tr l x) as [? [? | ?]]; reflexivity
  end.
Qed.

End ForwardResult.

(** ** Shapes through the layers *)

Lemma conv_out_pointwise (size : Z) : Shape.conv_out size 1 1 0 = size.
Proof.
  unfold Shape.conv_out. rewrite Z.div_1_r. lia.
Qed.

Lemma int_half_odd (k : Z) : 0 < k -> Z.odd k = true -> 2 * int_half k = k - 1.
Proof.
  intros Hk Hodd. unfold int_half.
  rewrite Z.quot_div_nonneg by lia.
  pose proof (Z.div_mod k 2 ltac:(lia)) as Hdiv.
  rewrite Zmod_odd, Hodd in Hdiv. lia.
Qed.

Lemma int_half_even (k : Z) : 0 < k -> Z.even k = true -> 2 * int_half k = k.
Proof.
  intros Hk Heven. unfold int_half.
  rewrite Z.quot_div_nonneg by lia.
  pose proof (Z.div_mod k 2 ltac:(lia)) as Hdiv.
  rewrite Zmod_even, Heven in Hdiv. lia.
Qed.

Lemma conv_out_same (size k : Z) :
  0 < k -> Z.odd k = true -> Shape.conv_out size k 1 (int_half k) = size.
Proof.
  intros Hk Hodd. unfold Shape.conv_out.
  rewrite (int_half_odd Hk Hodd), Z.div_1_r. lia.
Qed.

Lemma conv_out_grows (size k : Z) :
  0 < k -> Z.even k = true -> Shape.conv_out size k 1 (int_half k) = size + 1.
Proof.
  intros Hk Heven. unfold Shape.conv_out.
  rewrite (int_half_even Hk Heven), Z.div_1_r. lia.
Qed.

(** The three-layer primitive on a four-dimensional input. *)
Lemma convbr_on_batch (training : bool) (i o k s p t n h w : Z) :
  0 < k -> 0 < s -> 0 <= p -> k <= h + 2 * p -> k <= w + 2 * p ->
  (training = true ->
   n * (Shape.conv_out h k s p * Shape.conv_out w k s p) <> 1) ->
  seq_result training [Conv2d i o k s p; BatchNorm2d o t; LeakyReLU]
             [n; i; h; w]
  = Ok [n; o; Shape.conv_out h k s p; Shape.conv_out w k s p].
Proof.
  intros Hk Hs Hp Hh Hw Hvalues.
  unfold seq_result. cbn [Sequential_forward layer_forward Shape.tensor
                          Shape.layer_forward].
  unfold Shape.conv2d.
  replace (0 <? k) with true by (symmetry; apply Z.ltb_lt; lia).
  replace (0 <? s) with true by (symmetry; apply Z.ltb_lt; lia).
  replace (0 <=? p) with true by (symmetry; apply Z.leb_le; lia).
  rewrite Z.eqb_refl.
  replace (h + 2 * p <? k) with false by (symmetry; apply Z.ltb_ge; lia).
  replace (w + 2 * p <? k) with false by (symmetry; apply Z.ltb_ge; lia).
  cbn [andb orb negb].
  unfold Shape.batch_norm.
  cbn [length existsb Nat.eqb orb negb nth Shape.values_per_channel
       Shape.numel fold_right].
  rewrite Z.eqb_refl. cbn [negb].
  destruct training; cbn [andb]; [| reflexivity].
  replace (_ =? 1) with false; [reflexivity |].
  symmetry. apply Z.eqb_neq. specialize (Hvalues eq_refl). lia.
Qed.

Lemma convbr_inversion (training : bool) (i o k s p t : Z)
  (x y : Shape.shape) :
  seq_result training [Conv2d i o k s p; BatchNorm2d o t; LeakyReLU] x = Ok y ->
  exists n h w,
    x = [n; i; h; w] /\
    y = [n; o; Shape.conv_out h k s p; Shape.conv_out w k s p].
Proof.
  unfold seq_result. cbn [Sequential_forward layer_forward Shape.tensor
                          Shape.layer_forward].
  unfold Shape.conv2d.
  destruct (negb _); [discriminate |].
  destruct x as [| n [| c [| h [| w [| ? ?]]]]]; try discriminate.
  destruct (Z.eqb_spec c i) as [-> |]; [| discriminate].
  cbn [negb]. destruct (_ || _); [discriminate |].
  unfold Shape.batch_norm.
  cbn [length existsb Nat.eqb orb negb nth].
  destruct (training && _); [discriminate |].
  rewrite Z.eqb_refl. cbn [negb snd fst].
  intros [= <-]. exists n, h, w. split; reflexivity.
Qed.

Lemma broadcasts_to_refl (l : list Z) : Shape.broadcasts_to l l = true.
Proof.
  induction l as [| d l IH]; simpl; [reflexivity |].
  rewrite Z.eqb_refl, IH. reflexivity.
Qed.

Lemma iadd_same_shape (x : Shape.shape) : iadd x x = Ok x.
Proof.
  cbn [iadd Shape.tensor]. unfold Shape.iadd.
  rewrite broadcasts_to_refl. reflexivity.
Qed.

(** Adding a four-dimensional input to an output that is larger by one in
    both spatial dimensions: only a 1x1 input broadcasts. *)
Lemma iadd_grown (n c h w : Z) :
  iadd [n; c; h + 1; w + 1] [n; c; h; w]
  = if (h =? 1) && (w =? 1) then Ok [n; c; h + 1; w + 1]
    else Err (ShapeError BroadcastMismatch).
Proof.
  cbn [iadd Shape.tensor]. unfold Shape.iadd.
  cbn [rev app Shape.broadcasts_to].
  rewrite !Z.eqb_refl.
  replace (w =? w + 1) with false by (symmetry; apply Z.eqb_neq; lia).
  replace (h =? h + 1) with false by (symmetry; apply Z.eqb_neq; lia).
  destruct (h =? 1), (w =? 1); reflexivity.
Qed.

(** A block with an odd kernel returns a tensor of the shape of its
    input. *)
Lemma block_odd_result (training : bool) (channels reduced ksize n h w : Z) :
  0 < ksize -> Z.odd ksize = true -> 1 <= h -> 1 <= w ->
  (training = true -> n * (h * w) <> 1) ->
  block_result training (block.init channels reduced ksize)
               [n; channels; h; w]
  = Ok [n; channels; h; w].
Proof.
  intros Hk Hodd Hh Hw Hvalues.
  rewrite block_forward_result.
  unfold block.init, convbr, default. cbn [block.conv1 block.conv2 block.conv3].
  pose proof (int_half_odd Hk Hodd) as Hhalf.
  rewrite convbr_on_batch; rewrite ?conv_out_pointwise; try lia; trivial.
  cbn [rbind].
  rewrite convbr_on_batch; rewrite ?conv_out_same; try lia; trivial.
  cbn [rbind].
  rewrite convbr_on_batch; rewrite ?conv_out_pointwise; try lia; trivial.
  cbn [rbind].
  apply iadd_same_shape.
Qed.


(** Whatever a block of the constructor returns has the batch size and the
    channels of its input. *)
Lemma block_inversion (training : bool) (channels reduced ksize : Z)
  (x y : Shape.shape) :
  block_result training (block.init channels reduced ksize) x = Ok y ->
  exists n h w h' w',
    x = [n; channels; h; w] /\ y = [n; channels; h'; w'].
Proof.
  rewrite block_forward_result.
  unfold block.init, convbr, default. cbn [block.conv1 block.conv2 block.conv3].
  destruct (seq_result training _ x) as [o1 |] eqn:E1; [| discriminate].
  apply convbr_inversion in E1. destruct E1 as (n & h & w & -> & ->).
  cbn [rbind].
  destruct (seq_result training _ _) as [o2 |] eqn:E2; [| discriminate].
  apply convbr_inversion in E2.
  destruct E2 as (n2 & h2 & w2 & [= <- <- <-] & ->).
  cbn [rbind].
  destruct (seq_result training _ _) as [o3 |] eqn:E3; [| discriminate].
  apply convbr_inversion in E3.
  destruct E3 as (n3 & h3 & w3 & [= <- <- <-] & ->).
  cbn [rbind iadd Shape.tensor]. unfold Shape.iadd.
  destruct (Shape.broadcasts_to _ _); [| discriminate].
  intros [= <-]. do 5 eexists. split; reflexivity.
Qed.

(** ** Kernel parity and the residual addition *)




(** ** Chunks *)

Lemma sequential_result_cons {L T} (fwd : L -> T -> L * result T)
  (m : L) (rest : list L) (x : T) :
  snd (Sequential_forward fwd (m :: rest) x)
  = let! y := snd (fwd m x) in snd (Sequential_forward fwd rest y).
Proof.
  simpl. destruct (fwd m x) as [m' [y | e]]; simpl; [| reflexivity].
  destruct (Sequential_forward fwd rest y); reflexivity.
Qed.

Lemma chunk_result_cons (training : bool) (b : block.t) (bs : list block.t)
  (x : Shape.shape) :
  chunk_result training (b :: bs) x
  = let! y := block_result training b x in chunk_result training bs y.
Proof.
  unfold chunk_result. rewrite sequential_result_cons. reflexivity.
Qed.

(** A chunk of odd-kernel blocks returns a tensor of the shape of its
    input, however many blocks it has. *)
Lemma chunk_odd_result (training : bool)
  (channels chunks reduced ksize n h w : Z) :
  0 < ksize -> Z.odd ksize = true -> 1 <= h -> 1 <= w ->
  (training = true -> n * (h * w) <> 1) ->
  chunk_result training (FracNet.make_chunk channels chunks reduced ksize)
               [n; channels; h; w]
  = Ok [n; channels; h; w].
Proof.
  intros Hk Hodd Hh Hw Hvalues. rewrite make_chunk_repeat.
  induction (Z.to_nat chunks) as [| c IH]; [reflexivity |].
  cbn [repeat]. rewrite chunk_result_cons, block_odd_result by assumption.
  exact IH.
Qed.

(** Whatever a chunk of the constructor returns has the batch size and the
    channels of its input. *)
Lemma chunk_inversion (training : bool) (channels chunks reduced ksize : Z)
  (n h w : Z) (y : Shape.shape) :
  chunk_result training (FracNet.make_chunk channels chunks reduced ksize)
               [n; channels; h; w] = Ok y ->
  exists h' w', y = [n; channels; h'; w'].
Proof.
  rewrite make_chunk_repeat. revert h w.
  induction (Z.to_nat chunks) as [| c IH]; intros h w.
  - intros [= <-]. eauto.
  - cbn [repeat]. rewrite chunk_result_cons.
    destruct (block_result training _ _) as [z |] eqn:E; [| discriminate].
    apply block_inversion in E.
    destruct E as (n1 & h1 & w1 & h2 & w2 & [= <- <- <-] & ->).
    cbn [rbind]. apply IH.
Qed.

(** ** Errors of well-formed modules *)








(** ** Buffers do not matter to the value returned *)

Lemma sequential_result_same {L T} (fwd : L -> T -> L * result T)
  (erase : L -> L) :
  (forall l l' x, erase l' = erase l -> snd (fwd l' x) = snd (fwd l x)) ->
  forall modules modules' x,
    map erase modules' = map erase modules ->
    snd (Sequential_forward fwd modules' x)
    = snd (Sequential_forward fwd modules x).
Proof.
  intros Hfwd modules.
  induction modules as [| m rest IH]; intros [| m' rest'] x Hsame;
    try discriminate; [reflexivity |].
  cbn [map] in Hsame. injection Hsame as Hm Hrest.
  rewrite !sequential_result_cons, (Hfwd m m' x Hm).
  destruct (snd (fwd m x)) as [y | e]; cbn [rbind]; [| reflexivity].
  apply IH, Hrest.
Qed.


Lemma layer_result_fresh (training : bool) (l : Layer) (x : Shape.shape) :
  snd (layer_forward training (fresh l) x) = snd (layer_forward training l x).
Proof.
  destruct l; try reflexivity;
    cbn [fresh layer_forward Shape.tensor Shape.layer_forward];
    unfold Shape.batch_norm;
    destruct (negb (existsb _ _)); try reflexivity;
    destruct (training && _); try reflexivity;
    destruct (negb (_ =? _)); reflexivity.
Qed.


Lemma layer_result_same (training : bool) (l l' : Layer) (x : Shape.shape) :
  fresh l' = fresh l ->
  snd (layer_forward training l' x) = snd (layer_forward training l x).
Proof.
  intro Hsame.
  rewrite <- (layer_result_fresh training l'), Hsame.
  apply layer_result_fresh.
Qed.

Lemma seq_result_same (training : bool) (modules modules' : Sequential)
  (x : Shape.shape) :
  map fresh modules' = map fresh modules ->
  seq_result training modules' x = seq_result training modules x.
Proof.
  unfold seq_result. apply sequential_result_same.
  intros l l' y. apply layer_result_same.
Qed.

Lemma block_result_same (training : bool) (b b' : block.t) (x : Shape.shape) :
  fresh_block b' = fresh_block b ->
  block_result training b' x = block_result training b x.
Proof.
  unfold fresh_block. intros [= H1 H2 H3].
  rewrite !block_forward_result.
  rewrite (seq_result_same training _ _ x H1).
  destruct (seq_result training (block.conv1 b) x) as [o1 |];
    cbn [rbind]; [| reflexivity].
  rewrite (seq_result_same training _ _ o1 H2).
  destruct (seq_result training (block.conv2 b) o1) as [o2 |];
    cbn [rbind]; [| reflexivity].
  rewrite (seq_result_same training _ _ o2 H3).
  reflexivity.
Qed.

Lemma chunk_result_same (training : bool) (blocks blocks' : list block.t)
  (x : Shape.shape) :
  map fresh_block blocks' = map fresh_block blocks ->
  chunk_result training blocks' x = chunk_result training blocks x.
Proof.
  unfold chunk_result. apply sequential_result_same.
  intros b b' y. apply block_result_same.
Qed.

(** Two networks of one architecture, in the same mode, return the same
    value. *)
Lemma forward_result_same (m m' : FracNet.t) (x : Shape.shape) :
  FracNet.training m' = FracNet.training m ->
  architecture m' = architecture m ->
  forward_result m' x = forward_result m x.
Proof.
  intros Hmode Harch. unfold architecture, pools, chunks_of in Harch.
  cbn [map] in Harch.
  injection Harch as P0 P1 P2 P3 P4 P5 P6 C0 C1 C2 C3 C4 C5 C6 F0 Fout.
  rewrite !forward_result_stages. cbv zeta. rewrite Hmode.
  repeat match goal with
         | |- rbind (seq_result ?tr ?l' ?y) _ = _ =>
             rewrite (@seq_result_same tr _ l' y) by eassumption;
             destruct (seq_result tr _ y); cbn [rbind]; [| reflexivity]
         | |- rbind (chunk_result ?tr ?l' ?y) _ = _ =>
             rewrite (@chunk_result_same tr _ l' y) by eassumption;
             destruct (chunk_result tr _ y); cbn [rbind]; [| reflexivity]
         | |- rbind (reshape_rows ?y) _ = _ =>
             destruct (reshape_rows y); cbn [rbind]; [| reflexivity]
         end.
  apply layer_result_same, Fout.
Qed.




Ltac reduce_attributes :=
  cbn [
       FracNet.training FracNet.Accuracies FracNet.losses
       FracNet.total_epochs FracNet.num_classes FracNet.pool0
       FracNet.pool1 FracNet.pool2 FracNet.pool3 FracNet.pool4
       FracNet.pool5 FracNet.pool6 FracNet.chunk0 FracNet.chunk1
       FracNet.chunk2 FracNet.chunk3 FracNet.chunk4 FracNet.chunk5
       FracNet.chunk6 FracNet.fc0 FracNet.fcout FracNet.pool0_
       FracNet.pool1_ FracNet.pool2_ FracNet.pool3_ FracNet.pool4_
       FracNet.pool5_ FracNet.pool6_ FracNet.chunk0_ FracNet.chunk1_
       FracNet.chunk2_ FracNet.chunk3_ FracNet.chunk4_ FracNet.chunk5_
       FracNet.chunk6_ FracNet.fc0_ FracNet.fcout_ get set fst snd] in *.



Lemma train_architecture (mode : bool) (m : FracNet.t) :
  FracNet.training (FracNet.train mode m) = mode /\
  architecture (FracNet.train mode m) = architecture m.
Proof.
  split; reflexivity.
Qed.

(** ** Networks of the constructor *)

Lemma block_init_well_formed (channels reduced ksize : Z) :
  0 < ksize -> block_well_formed (block.init channels reduced ksize) = true.
Proof.
  intro Hk. unfold block_well_formed, block.init, convbr, default.
  cbn [block.conv1 block.conv2 block.conv3 forallb well_formed].
  assert (Hhalf : 0 <= int_half ksize) by (apply Z.quot_pos; lia).
  apply Z.ltb_lt in Hk. apply Z.leb_le in Hhalf.
  rewrite Hk, Hhalf. reflexivity.
Qed.

Lemma make_chunk_well_formed (channels chunks reduced ksize : Z) :
  0 < ksize ->
  forallb block_well_formed
          (FracNet.make_chunk channels chunks reduced ksize) = true.
Proof.
  intro Hk. rewrite make_chunk_repeat.
  induction (Z.to_nat chunks) as [| c IH]; [reflexivity |].
  cbn [repeat forallb]. rewrite block_init_well_formed, IH by assumption.
  reflexivity.
Qed.

Lemma pool_well_formed (i o k : Z) :
  0 < k ->
  forallb well_formed (convbr i o (Some k) (Some 2) (Some 0)) = true.
Proof.
  intro Hk. unfold convbr, default. cbn [forallb well_formed].
  apply Z.ltb_lt in Hk. rewrite Hk. reflexivity.
Qed.

Lemma Forall_nth_default (P : Z -> Prop) (l : list Z) (i : nat) :
  Forall P l -> (i < length l)%nat -> P (nth i l 0).
Proof.
  intros Hall Hi. rewrite Forall_forall in Hall. apply Hall, nth_In, Hi.
Qed.

(** With positive kernels everywhere, the constructor's network is
    well-formed, in training and in evaluation mode. *)
Lemma init_well_formed (num_classes : Z) (dropout : Q)
  (chunks ksize psize : list Z) (m : FracNet.t) (mode : bool) :
  FracNet.init num_classes dropout chunks ksize psize = Ok m ->
  Forall (fun k => 0 < k) psize -> Forall (fun k => 0 < k) ksize ->
  net_well_formed (FracNet.train mode m) = true.
Proof.
  intros Hm Hp Hk. apply init_inversion in Hm.
  destruct Hm as (-> & _ & Hlk & Hlp).
  unfold net_well_formed, pools, chunks_of, FracNet.train.
  cbn [FracNet.pool0 FracNet.pool1 FracNet.pool2 FracNet.pool3 FracNet.pool4
       FracNet.pool5 FracNet.pool6 FracNet.chunk0 FracNet.chunk1
       FracNet.chunk2 FracNet.chunk3 FracNet.chunk4 FracNet.chunk5
       FracNet.chunk6 FracNet.fc0 FracNet.fcout fst snd forallb].
  rewrite !pool_well_formed
    by (apply Forall_nth_default with (P := fun k => 0 < k);
        [exact Hp | lia]).
  rewrite !make_chunk_well_formed
    by (apply Forall_nth_default with (P := fun k => 0 < k);
        [exact Hk | lia]).
  reflexivity.
Qed.

(** A pooling stage on a batch of square maps. *)
Lemma pool_stage (training : bool) (i o k n size : Z) :
  0 < k -> k <= size -> 1 <= n -> 2 <= Shape.conv_out size k 2 0 ->
  seq_result training (convbr i o (Some k) (Some 2) (Some 0))
             [n; i; size; size]
  = Ok [n; o; Shape.conv_out size k 2 0; Shape.conv_out size k 2 0].
Proof.
  intros Hk Hsize Hn Hout. unfold convbr, default.
  apply convbr_on_batch; lia.
Qed.

(** The fully-connected primitive on a batch of rows. *)
Lemma fcbrd_on_rows (training : bool) (d : Q) (i o t n : Z) :
  (training = true -> n <> 1) ->
  seq_result training [Dropout d; Linear i o; BatchNorm1d o t; LeakyReLU]
             [n; i]
  = Ok [n; o].
Proof.
  intro Hn. unfold seq_result.
  cbn [Sequential_forward layer_forward Shape.tensor Shape.layer_forward
       Shape.linear rev app].
  rewrite Z.eqb_refl. unfold Shape.batch_norm.
  cbn [length existsb Nat.eqb orb negb nth Shape.values_per_channel
       Shape.numel fold_right].
  rewrite Z.eqb_refl. cbn [negb].
  destruct training; cbn [andb]; [| reflexivity].
  replace (n * 1 =? 1) with false; [reflexivity |].
  symmetry. apply Z.eqb_neq. specialize (Hn eq_refl). lia.
Qed.

Lemma fcbrd_inversion (training : bool) (d : Q) (i o t n f : Z)
  (y : Shape.shape) :
  seq_result training [Dropout d; Linear i o; BatchNorm1d o t; LeakyReLU]
             [n; f] = Ok y ->
  f = i /\ y = [n; o].
Proof.
  unfold seq_result.
  cbn [Sequential_forward layer_forward Shape.tensor Shape.layer_forward
       Shape.linear rev app].
  destruct (Z.eqb_spec f i) as [-> |]; [| discriminate].
  unfold Shape.batch_norm.
  cbn [length existsb Nat.eqb orb negb nth].
  destruct (training && _); [discriminate |].
  rewrite Z.eqb_refl. cbn [negb snd fst].
  intros [= <-]. split; reflexivity.
Qed.

(** ** The tower on 640x640 images *)

(** A closed numeric side condition. *)
Ltac by_evaluation :=
  solve [ lia
        | vm_compute; reflexivity
        | vm_compute; intro; discriminate ].

Lemma reshape_pooled (n c : Z) :
  1 <= n -> reshape_rows [n; c; 3; 3] = Ok [n; c * 9].
Proof.
  intro Hn. cbn [reshape_rows Shape.tensor]. unfold Shape.reshape_rows.
  replace (n =? 0) with false by (symmetry; apply Z.eqb_neq; lia).
  reflexivity.
Qed.

(** C2: with psize = [10, 10, 8, 8, 4, 4, 2] the sizes after the seven
    pooling convolutions of a 640x640 input are 316, 154, 74, 34, 16, 7, 3,
    each pooling stage of the constructed network maps a batch of maps of
    one size to maps of the next, and the reshape of the last stage's
    output has rows of length 512 * 3 * 3 = 4608, the in_features of fc0. *)
Theorem pool_tower_sizes (num_classes : Z) (dropout : Q)
  (chunks ksize : list Z) (m : FracNet.t) :
  FracNet.init num_classes dropout chunks ksize [10; 10; 8; 8; 4; 4; 2] = Ok m ->
  spatial_sizes 640 [10; 10; 8; 8; 4; 4; 2] = [316; 154; 74; 34; 16; 7; 3] /\
  (forall training n i,
      1 <= n -> (i < 7)%nat ->
      let sizes := 640 :: spatial_sizes 640 [10; 10; 8; 8; 4; 4; 2] in
      seq_result training (nth i (pools m) [])
                 [n; nth i (1 :: FracNet.num_maps) 0; nth i sizes 0;
                  nth i sizes 0]
      = Ok [n; nth i FracNet.num_maps 0; nth (S i) sizes 0;
            nth (S i) sizes 0]) /\
  (forall n, 1 <= n -> reshape_rows [n; 512; 3; 3] = Ok [n; 4608]) /\
  512 * 3 * 3 = 4608 /\
  nth 6 FracNet.num_maps 0 * 3 * 3 = 4608 /\
  nth 1 (FracNet.fc0 m) LeakyReLU
  = Linear (nth 6 FracNet.num_maps 0 * 3 * 3) 1000.
Proof.
  intro Hm. apply init_inversion in Hm. destruct Hm as [-> _].
  split; [reflexivity |].
  split; [| split; [| repeat split]].
  - intros training n i Hn Hi sizes.
    assert (Hsizes : sizes = [640; 316; 154; 74; 34; 16; 7; 3])
      by reflexivity.
    rewrite Hsizes. clear Hsizes sizes.
    unfold pools, FracNet.num_maps.
    do 7 (destruct i as [| i];
          [cbn [nth fst snd FracNet.pool0 FracNet.pool1 FracNet.pool2
                FracNet.pool3 FracNet.pool4 FracNet.pool5 FracNet.pool6];
           rewrite pool_stage by by_evaluation; reflexivity |]).
    lia.
  - intros n Hn. apply (reshape_pooled 512 Hn).
Qed.

Lemma pool_tower_sizes_witness :
  exists m,
    FracNet.init 4 0%Q [1; 2; 0; 1; 0; 1; 2] [3; 5; 3; 7; 1; 3; 3]
                 [10; 10; 8; 8; 4; 4; 2] = Ok m /\
    spatial_sizes 640 [10; 10; 8; 8; 4; 4; 2] = [316; 154; 74; 34; 16; 7; 3].
Proof.
  eexists. split; [reflexivity |].
  apply (pool_tower_sizes 4 0%Q [1; 2; 0; 1; 0; 1; 2] [3; 5; 3; 7; 1; 3; 3]
           eq_refl).
Defined.

(** Reading the attributes of a network given by its constructor. *)
Ltac read_attributes :=
  unfold FracNet.train;
  cbn [FracNet.training FracNet.pool0 FracNet.pool1 FracNet.pool2
       FracNet.pool3 FracNet.pool4 FracNet.pool5 FracNet.pool6
       FracNet.chunk0 FracNet.chunk1 FracNet.chunk2 FracNet.chunk3
       FracNet.chunk4 FracNet.chunk5 FracNet.chunk6 FracNet.fc0
       FracNet.fcout fst snd];
  unfold FracNet.num_maps, FracNet.reduce_maps;
  cbn [nth].

Ltac read_attributes_in H :=
  unfold FracNet.train in H;
  cbn [FracNet.training FracNet.pool0 FracNet.pool1 FracNet.pool2
       FracNet.pool3 FracNet.pool4 FracNet.pool5 FracNet.pool6
       FracNet.chunk0 FracNet.chunk1 FracNet.chunk2 FracNet.chunk3
       FracNet.chunk4 FracNet.chunk5 FracNet.chunk6 FracNet.fc0
       FracNet.fcout fst snd] in H;
  unfold FracNet.num_maps, FracNet.reduce_maps in H;
  cbn [nth] in H.


Lemma block_init_kernel (channels reduced ksize : Z) :
  block_well_formed (block.init channels reduced ksize) = true -> 0 < ksize.
Proof.
  unfold block_well_formed, block.init, convbr, default.
  cbn [block.conv1 block.conv2 block.conv3 forallb well_formed].
  destruct (Z.ltb_spec 0 ksize) as [Hk | Hk]; [intros _; exact Hk |].
  cbn. discriminate.
Qed.

(** A chunk the framework built out of odd-kernel blocks returns a tensor
    of the shape of its input. *)
Lemma chunk_built_odd_result (training : bool)
  (channels chunks reduced ksize n h w : Z) :
  forallb block_well_formed
          (FracNet.make_chunk channels chunks reduced ksize) = true ->
  Z.odd ksize = true -> 1 <= h -> 1 <= w ->
  (training = true -> n * (h * w) <> 1) ->
  chunk_result training (FracNet.make_chunk channels chunks reduced ksize)
               [n; channels; h; w]
  = Ok [n; channels; h; w].
Proof.
  intros Hwf Hodd Hh Hw Hvalues.
  destruct (Z.to_nat chunks) as [| c] eqn:E.
  - rewrite make_chunk_repeat, E. reflexivity.
  - rewrite make_chunk_repeat, E in Hwf. cbn [repeat forallb] in Hwf.
    apply andb_prop in Hwf. destruct Hwf as [Hb _].
    apply block_init_kernel in Hb.
    apply chunk_odd_result; assumption.
Qed.


Ltac split_conjunctions :=
  repeat match goal with
         | H : _ && _ = true |- _ =>
             let H' := fresh "Hwf" in
             apply andb_prop in H; destruct H as [H H']
         end.




(** ** The output *)

(** One pooling stage and its chunk, read backwards from a value
    returned. *)
Ltac invert_stage H :=
  let E := fresh "E" in
  let Ex := fresh "Ex" in
  match type of H with
  | rbind ?c _ = Ok _ =>
      destruct c eqn:E; [| discriminate H];
      unfold convbr, default in E;
      apply convbr_inversion in E;
      destruct E as (? & ? & ? & Ex & ->);
      first [ injection Ex as <- <- <- | subst ];
      cbn [rbind] in H
  end;
  match type of H with
  | rbind ?c _ = Ok _ =>
      destruct c eqn:E; [| discriminate H];
      apply chunk_inversion in E;
      destruct E as (? & ? & ->);
      cbn [rbind] in H
  end.

(** Whatever the forward pass of a constructed network returns is one row
    of [num_classes] values per element of a single-channel batch. *)
Lemma forward_output (num_classes : Z) (dropout : Q)
  (chunks ksize psize : list Z) (m : FracNet.t) (mode : bool)
  (x y : Shape.shape) :
  FracNet.init num_classes dropout chunks ksize psize = Ok m ->
  forward_result (FracNet.train mode m) x = Ok y ->
  exists n h w, x = [n; 1; h; w] /\ y = [n; num_classes].
Proof.
  intros Hm H. apply init_inversion in Hm. destruct Hm as [-> _].
  rewrite forward_result_stages in H. cbv zeta in H. read_attributes_in H.
  do 7 invert_stage H.
  destruct (reshape_rows _) as [rows |] eqn:E; [| discriminate H].
  cbn [reshape_rows Shape.tensor] in E. unfold Shape.reshape_rows in E.
  destruct (_ =? 0); [discriminate E |]. injection E as <-.
  cbn [rbind] in H. unfold fcbrd, default in H.
  destruct (seq_result _ _ _) as [features |] eqn:E; [| discriminate H].
  apply fcbrd_inversion in E. destruct E as [_ ->].
  cbn in H. injection H as <-.
  do 3 eexists. split; reflexivity.
Qed.

(** C4: the first layer of a constructed network is a convolution over one
    input feature map, the last one is Linear 1000 -> num_classes, and
    whenever a forward pass of the network returns (in either mode, after
    any number of earlier passes), its input was a batch of single-channel
    maps and its output has exactly num_classes values per element of the
    batch. *)
Theorem single_channel_to_classes (num_classes : Z) (dropout : Q)
  (chunks ksize psize : list Z) (m0 : FracNet.t) :
  FracNet.init num_classes dropout chunks ksize psize = Ok m0 ->
  hd LeakyReLU (FracNet.pool0 m0) = Conv2d 1 8 (nth 0 psize 0) 2 0 /\
  FracNet.fcout m0 = Linear 1000 num_classes /\
  FracNet.num_classes m0 = num_classes /\
  (forall m x y,
      architecture m = architecture m0 ->
      forward_result m x = Ok y ->
      exists n h w, x = [n; 1; h; w] /\ y = [n; num_classes]).
Proof.
  intro Hm. split; [| split; [| split]].
  - apply init_inversion in Hm. destruct Hm as [-> _]. reflexivity.
  - apply init_inversion in Hm. destruct Hm as [-> _]. reflexivity.
  - apply init_inversion in Hm. destruct Hm as [-> _]. reflexivity.
  - intros m x y Harch Hy.
    assert (Hsame : forward_result m x
                    = forward_result
                        (FracNet.train (FracNet.training m) m0) x).
    { apply forward_result_same; [reflexivity | exact Harch]. }
    rewrite Hsame in Hy. eapply forward_output; eassumption.
Qed.

Lemma single_channel_to_classes_witness :
  exists m,
    FracNet.init 4 0%Q [1; 2; 0; 1; 0; 1; 2] [3; 5; 3; 7; 1; 3; 3]
                 [10; 10; 8; 8; 4; 4; 2] = Ok m /\
    FracNet.fcout m = Linear 1000 4.
Proof.
  eexists. split; [reflexivity |].
  apply (@single_channel_to_classes 4 0%Q [1; 2; 0; 1; 0; 1; 2]
           [3; 5; 3; 7; 1; 3; 3] [10; 10; 8; 8; 4; 4; 2] _ eq_refl).
Defined.

(** * Further properties *)

(** ** Arguments of the constructor *)



(** [make_chunk] builds max(0, chunks) blocks: a zero or negative count
    gives an empty Sequential, not an error, and such a chunk returns its
    input. *)
Theorem make_chunk_length (channels chunks reduced ksize : Z) :
  Z.of_nat (length (FracNet.make_chunk channels chunks reduced ksize))
  = Z.max 0 chunks /\
  (chunks <= 0 ->
   FracNet.make_chunk channels chunks reduced ksize = [] /\
   forall training (x : Shape.shape),
     chunk_result training
       (FracNet.make_chunk channels chunks reduced ksize) x = Ok x).
Proof.
  rewrite make_chunk_repeat, repeat_length. split; [lia |].
  intro Hc. replace (Z.to_nat chunks) with 0%nat by lia.
  split; reflexivity.
Qed.

(** ** The forward pass on any image size *)

Lemma convbr_kernel_exceeds (training : bool) (i o k s p t n h w : Z) :
  0 < k -> 0 < s -> 0 <= p -> h + 2 * p < k \/ w + 2 * p < k ->
  seq_result training [Conv2d i o k s p; BatchNorm2d o t; LeakyReLU]
             [n; i; h; w]
  = Err (ShapeError KernelExceedsInput).
Proof.
  intros Hk Hs Hp Hsmall.
  unfold seq_result. cbn [Sequential_forward layer_forward Shape.tensor
                          Shape.layer_forward].
  unfold Shape.conv2d.
  replace (0 <? k) with true by (symmetry; apply Z.ltb_lt; lia).
  replace (0 <? s) with true by (symmetry; apply Z.ltb_lt; lia).
  replace (0 <=? p) with true by (symmetry; apply Z.leb_le; lia).
  rewrite Z.eqb_refl. cbn [andb negb].
  destruct (Z.ltb_spec (h + 2 * p) k), (Z.ltb_spec (w + 2 * p) k);
    try reflexivity.
  lia.
Qed.

Lemma conv_out_positive (size k : Z) :
  0 < k -> k <= size -> 1 <= Shape.conv_out size k 2 0.
Proof.
  intros Hk Hsize. unfold Shape.conv_out.
  assert (0 <= (size + 2 * 0 - k) / 2) by (apply Z.div_pos; lia). lia.
Qed.

Lemma fcbrd_on_any_rows (training : bool) (d : Q) (i o t n f : Z) :
  (training = true -> n <> 1) ->
  seq_result training [Dropout d; Linear i o; BatchNorm1d o t; LeakyReLU]
             [n; f]
  = if f =? i then Ok [n; o] else Err (ShapeError FeatureMismatch).
Proof.
  intro Hn. destruct (Z.eqb_spec f i) as [-> | Hf].
  - apply fcbrd_on_rows, Hn.
  - unfold seq_result.
    cbn [Sequential_forward layer_forward Shape.tensor Shape.layer_forward
         Shape.linear rev app].
    replace (f =? i) with false by (symmetry; apply Z.eqb_neq; exact Hf).
    reflexivity.
Qed.

Lemma pool_kernel_positive (i o k : Z) :
  forallb well_formed (convbr i o (Some k) (Some 2) (Some 0)) = true -> 0 < k.
Proof.
  unfold convbr, default. cbn [forallb well_formed].
  destruct (Z.ltb_spec 0 k) as [Hk | Hk]; [intros _; exact Hk | discriminate].
Qed.

Lemma batch_values (training : bool) (n v : Z) :
  (training = true -> 2 <= n) -> training = true -> n * v <> 1.
Proof.
  intros Hn Htr E. specialize (Hn Htr).
  destruct (Z.eq_mul_1 _ _ E); lia.
Qed.

Lemma tower_cons (k : Z) (rest : list Z) (size : Z) :
  tower (k :: rest) size
  = if size <? k then None else tower rest (Shape.conv_out size k 2 0).
Proof. reflexivity. Qed.

(** One stage of the tower: the pooling convolution raises when its kernel
    exceeds either dimension, and the stage otherwise returns maps of the
    next size. *)
Ltac tower_stage :=
  match goal with
  | |- rbind (seq_result ?tr (convbr ?i ?o (Some ?k) _ _) [?n; ?i; ?h; ?w]) _
       = _ =>
      rewrite (tower_cons k _ h), (tower_cons k _ w);
      unfold convbr at 1, default;
      destruct (Z.ltb_spec h k);
      [ rewrite convbr_kernel_exceeds by lia; reflexivity
      | destruct (Z.ltb_spec w k);
        [ rewrite convbr_kernel_exceeds by lia; cbn [rbind];
          match goal with
          | |- context [match tower ?l ?s with _ => _ end] =>
              destruct (tower l s)
          end; reflexivity
        | rewrite convbr_on_batch
            by (lia || (apply batch_values; assumption));
          cbn [rbind];
          let Hh := fresh "Hh" in
          let Hw := fresh "Hw" in
          assert (Hh : 1 <= Shape.conv_out h k 2 0)
            by (apply conv_out_positive; lia);
          assert (Hw : 1 <= Shape.conv_out w k 2 0)
            by (apply conv_out_positive; lia);
          rewrite chunk_built_odd_result
            by (assumption || (apply batch_values; assumption));
          cbn [rbind];
          let h' := fresh "h" in
          let w' := fresh "w" in
          set (h' := Shape.conv_out h k 2 0) in *;
          set (w' := Shape.conv_out w k 2 0) in *;
          clearbody h' w' ] ]
  end.

(** The value of the pass on a batch of single-channel images of any size,
    for a network the constructor returned. *)
Lemma forward_tower_result (num_classes : Z) (dropout : Q)
  (chunks ksize psize : list Z) (m : FracNet.t) (mode : bool) (n h w : Z) :
  FracNet.init num_classes dropout chunks ksize psize = Ok m ->
  net_well_formed m = true ->
  Forall (fun k => Z.odd k = true) ksize ->
  1 <= n -> (mode = true -> 2 <= n) ->
  forward_result (FracNet.train mode m) [n; 1; h; w]
  = match tower (firstn 7 psize) h, tower (firstn 7 psize) w with
    | Some a, Some b =>
        if a * b =? 9 then Ok [n; num_classes]
        else Err (ShapeError FeatureMismatch)
    | _, _ => Err (ShapeError KernelExceedsInput)
    end.
Proof.
  intros Hm Hwf Hodd Hn Hbatch. apply init_inversion in Hm.
  destruct Hm as (-> & _ & Hlk & Hlp).
  pose proof (Forall_nth_default (i := 0) Hodd ltac:(lia)) as K0.
  pose proof (Forall_nth_default (i := 1) Hodd ltac:(lia)) as K1.
  pose proof (Forall_nth_default (i := 2) Hodd ltac:(lia)) as K2.
  pose proof (Forall_nth_default (i := 3) Hodd ltac:(lia)) as K3.
  pose proof (Forall_nth_default (i := 4) Hodd ltac:(lia)) as K4.
  pose proof (Forall_nth_default (i := 5) Hodd ltac:(lia)) as K5.
  pose proof (Forall_nth_default (i := 6) Hodd ltac:(lia)) as K6.
  cbv beta in K0, K1, K2, K3, K4, K5, K6.
  destruct psize as [| p0 [| p1 [| p2 [| p3 [| p4 [| p5 [| p6 ps]]]]]]];
    cbn [length] in Hlp; try lia.
  unfold net_well_formed, pools, chunks_of in Hwf.
  apply andb_prop in Hwf. destruct Hwf as [Hwf _].
  apply andb_prop in Hwf. destruct Hwf as [Hwf _].
  cbn [forallb] in Hwf. read_attributes_in Hwf.
  split_conjunctions.
  repeat match goal with
         | H : forallb well_formed (convbr _ _ (Some _) _ _) = true |- _ =>
             apply pool_kernel_positive in H
         end.
  rewrite forward_result_stages. cbv zeta. read_attributes.
  cbn [firstn].
  do 7 tower_stage.
  cbn [tower reshape_rows Shape.tensor]. unfold Shape.reshape_rows.
  replace (n =? 0) with false by (symmetry; apply Z.eqb_neq; lia).
  cbn [rbind Shape.numel fold_right]. unfold fcbrd, default.
  rewrite fcbrd_on_any_rows by (intro Htr; specialize (Hbatch Htr); lia).
  match goal with
  | |- context [?f =? 4608] =>
      destruct (Z.eqb_spec f 4608) as [Ef | Ef]
  end;
  match goal with
  | |- context [?a * ?b =? 9] =>
      destruct (Z.eqb_spec (a * b) 9) as [E9 | E9]
  end; try lia; reflexivity.
Qed.

(** On a batch of single-channel images of any height and width (at least
    two images in training mode), the pass raises KernelExceedsInput when
    some pooling kernel exceeds what reaches it, FeatureMismatch when the
    maps left by the tower do not have nine values, and returns one row of
    num_classes values per image otherwise. *)
Theorem forward_any_size (num_classes : Z) (dropout : Q)
  (chunks ksize psize : list Z) (m0 : FracNet.t) :
  FracNet.init num_classes dropout chunks ksize psize = Ok m0 ->
  net_well_formed m0 = true ->
  Forall (fun k => Z.odd k = true) ksize ->
  forall m n h w,
    architecture m = architecture m0 ->
    1 <= n -> (FracNet.training m = true -> 2 <= n) ->
    forward_result m [n; 1; h; w]
    = match tower (firstn 7 psize) h, tower (firstn 7 psize) w with
      | Some a, Some b =>
          if a * b =? 9 then Ok [n; num_classes]
          else Err (ShapeError FeatureMismatch)
      | _, _ => Err (ShapeError KernelExceedsInput)
      end.
Proof.
  intros Hm Hwf Hodd m n h w Harch Hn Hbatch.
  assert (Hsame : forward_result m [n; 1; h; w]
                  = forward_result
                      (FracNet.train (FracNet.training m) m0) [n; 1; h; w]).
  { apply forward_result_same; [reflexivity | exact Harch]. }
  rewrite Hsame. eapply forward_tower_result; eassumption.
Qed.

Lemma forward_any_size_witness :
  exists m,
    FracNet.init 4 0%Q [1; 2; 0; 1; 0; 1; 2] [3; 5; 3; 7; 1; 3; 3]
                 [10; 10; 8; 8; 4; 4; 2] = Ok m /\
    forward_result m [2; 1; 600; 700] = Ok [2; 4] /\
    forward_result m [2; 1; 600; 100]
    = Err (ShapeError KernelExceedsInput) /\
    forward_result m [2; 1; 600; 800] = Err (ShapeError FeatureMismatch).
Proof.
  eexists. split; [reflexivity |].
  pose proof (@forward_any_size 4 0%Q [1; 2; 0; 1; 0; 1; 2]
                [3; 5; 3; 7; 1; 3; 3] [10; 10; 8; 8; 4; 4; 2] _ eq_refl
                eq_refl ltac:(repeat constructor)) as H.
  split; [| split].
  - apply (H _ 2 600 700 eq_refl); [lia | intros _; lia].
  - apply (H _ 2 600 100 eq_refl); [lia | intros _; lia].
  - apply (H _ 2 600 800 eq_refl); [lia | intros _; lia].
Defined.

(** ** Image sizes the documented tower accepts *)

Lemma conv_out_bounds (size k : Z) :
  2 * (Shape.conv_out size k 2 0 - 1) + k <= size
  <= 2 * (Shape.conv_out size k 2 0 - 1) + k + 1.
Proof.
  unfold Shape.conv_out. Z.div_mod_to_equations. lia.
Qed.

(** One stage of the documented tower, kept as a linear constraint. *)
Ltac documented_stage :=
  match goal with
  | |- tower (?k :: ?rest) ?s = Some _ <-> _ =>
      rewrite (tower_cons k rest s);
      pose proof (conv_out_bounds s k);
      destruct (Z.ltb_spec s k);
      [ split; [discriminate | intros; lia]
      | let v := fresh "s" in
        set (v := Shape.conv_out s k 2 0) in *; clearbody v ]
  end.

(** The tower with the kernels [10, 10, 8, 8, 4, 4, 2] leaves size [a] of
    exactly the 128 sizes from 128 a + 192 on. *)
Lemma tower_documented (size a : Z) :
  tower [10; 10; 8; 8; 4; 4; 2] size = Some a <->
  1 <= a /\ 128 * a + 192 <= size <= 128 * a + 319.
Proof.
  do 7 documented_stage.
  cbn [tower]. split; [intros [= <-]; lia | intros; f_equal; lia].
Qed.

Lemma nine_values (a b : Z) :
  1 <= a -> 1 <= b ->
  a * b = 9 <-> (a = 3 /\ b = 3) \/ (a = 1 /\ b = 9) \/ (a = 9 /\ b = 1).
Proof.
  intros Ha Hb. split; [| intros [[-> ->] | [[-> ->] | [-> ->]]]; reflexivity].
  intro E. assert (a <= 9) by nia.
  assert (Hcases : a = 1 \/ a = 2 \/ a = 3 \/ a = 4 \/ a = 5 \/ a = 6 \/
                   a = 7 \/ a = 8 \/ a = 9) by lia.
  repeat (destruct Hcases as [-> | Hcases]; [lia |]). subst a. lia.
Qed.

Lemma accepted_sizes (h w : Z) :
  accepted h w = true <->
  exists a b,
    tower [10; 10; 8; 8; 4; 4; 2] h = Some a /\
    tower [10; 10; 8; 8; 4; 4; 2] w = Some b /\ a * b = 9.
Proof.
  unfold accepted.
  rewrite !orb_true_iff, !andb_true_iff, !Z.leb_le. split.
  - intros [[Hr | Hr] | Hr].
    + exists 3, 3. rewrite !tower_documented. lia.
    + exists 1, 9. rewrite !tower_documented. lia.
    + exists 9, 1. rewrite !tower_documented. lia.
  - intros (a & b & Ha & Hb & E).
    apply tower_documented in Ha. apply tower_documented in Hb.
    apply nine_values in E; lia.
Qed.



(** ** A batch of one image *)

Lemma single_values (a b : Z) :
  1 <= a -> 1 <= b -> 3 <= a + b -> 1 * (a * b) <> 1.
Proof.
  intros Ha Hb Hsum. nia.
Qed.

(** One stage of the documented tower on a single image, in training
    mode; the sizes are kept as linear constraints. *)
Ltac single_image_stage :=
  match goal with
  | |- rbind (seq_result true (convbr ?i ?o (Some ?k) _ _) [1; ?i; ?h; ?w]) _
       = _ =>
      unfold convbr at 1, default;
      pose proof (conv_out_bounds h k);
      pose proof (conv_out_bounds w k);
      rewrite convbr_on_batch
        by (lia || (intros _; apply single_values; lia));
      cbn [rbind];
      rewrite chunk_built_odd_result
        by (assumption || lia || (intros _; apply single_values; lia));
      cbn [rbind];
      let h' := fresh "h" in
      let w' := fresh "w" in
      set (h' := Shape.conv_out h k 2 0) in *;
      set (w' := Shape.conv_out w k 2 0) in *;
      clearbody h' w'
  end.

Ltac single_image_pass :=
  do 7 single_image_stage;
  match goal with
  | |- rbind (reshape_rows [1; 512; ?a; ?b]) _ = _ =>
      first [ assert (a = 3) by lia; assert (b = 3) by lia
            | assert (a = 1) by lia; assert (b = 9) by lia
            | assert (a = 9) by lia; assert (b = 1) by lia ];
      subst a b; reflexivity
  end.

Lemma forward_single_image_training (num_classes : Z) (dropout : Q)
  (chunks ksize : list Z) (m : FracNet.t) (h w : Z) :
  FracNet.init num_classes dropout chunks ksize [10; 10; 8; 8; 4; 4; 2] = Ok m ->
  net_well_formed m = true ->
  Forall (fun k => Z.odd k = true) ksize ->
  accepted h w = true ->
  forward_result (FracNet.train true m) [1; 1; h; w]
  = Err (ShapeError TooFewValues).
Proof.
  intros Hm Hwf Hodd Hacc. apply init_inversion in Hm.
  destruct Hm as (-> & _ & Hlk & _).
  pose proof (Forall_nth_default (i := 0) Hodd ltac:(lia)) as K0.
  pose proof (Forall_nth_default (i := 1) Hodd ltac:(lia)) as K1.
  pose proof (Forall_nth_default (i := 2) Hodd ltac:(lia)) as K2.
  pose proof (Forall_nth_default (i := 3) Hodd ltac:(lia)) as K3.
  pose proof (Forall_nth_default (i := 4) Hodd ltac:(lia)) as K4.
  pose proof (Forall_nth_default (i := 5) Hodd ltac:(lia)) as K5.
  pose proof (Forall_nth_default (i := 6) Hodd ltac:(lia)) as K6.
  cbv beta in K0, K1, K2, K3, K4, K5, K6.
  unfold net_well_formed, pools, chunks_of in Hwf.
  apply andb_prop in Hwf. destruct Hwf as [Hwf _].
  apply andb_prop in Hwf. destruct Hwf as [Hwf _].
  apply andb_prop in Hwf. destruct Hwf as [_ Hwf].
  cbn [forallb] in Hwf. read_attributes_in Hwf.
  split_conjunctions.
  unfold accepted in Hacc.
  rewrite !orb_true_iff, !andb_true_iff, !Z.leb_le in Hacc.
  rewrite forward_result_stages. cbv zeta. read_attributes.
  destruct Hacc as [[Hr | Hr] | Hr]; single_image_pass.
Qed.

(** A batch of one image of an accepted size raises in training mode, at
    the batch normalisation of fc0, which then sees one value per channel;
    in evaluation mode the same batch returns its row of num_classes
    values. *)
Theorem forward_single_image (num_classes : Z) (dropout : Q)
  (chunks ksize : list Z) (m0 : FracNet.t) :
  FracNet.init num_classes dropout chunks ksize [10; 10; 8; 8; 4; 4; 2]
  = Ok m0 ->
  net_well_formed m0 = true ->
  Forall (fun k => Z.odd k = true) ksize ->
  forall m h w,
    architecture m = architecture m0 ->
    accepted h w = true ->
    forward_result m [1; 1; h; w]
    = if FracNet.training m then Err (ShapeError TooFewValues)
      else Ok [1; num_classes].
Proof.
  intros Hm Hwf Hodd m h w Harch Hacc.
  assert (Hsame : forward_result m [1; 1; h; w]
                  = forward_result
                      (FracNet.train (FracNet.training m) m0) [1; 1; h; w]).
  { apply forward_result_same; [reflexivity | exact Harch]. }
  rewrite Hsame. destruct (FracNet.training m).
  - eapply forward_single_image_training; eassumption.
  - rewrite (@forward_tower_result _ _ _ _ _ _ false 1 h w
               Hm Hwf Hodd ltac:(lia) ltac:(discriminate)).
    cbn [firstn]. apply accepted_sizes in Hacc.
    destruct Hacc as (a & b & -> & -> & E).
    apply Z.eqb_eq in E. rewrite E. reflexivity.
Qed.

Lemma forward_single_image_witness :
  exists m,
    FracNet.init 4 0%Q [1; 2; 0; 1; 0; 1; 2] [3; 5; 3; 7; 1; 3; 3]
                 [10; 10; 8; 8; 4; 4; 2] = Ok m /\
    forward_result m [1; 1; 640; 640] = Err (ShapeError TooFewValues) /\
    forward_result (FracNet.train false m) [1; 1; 640; 640] = Ok [1; 4].
Proof.
  eexists. split; [reflexivity |].
  pose proof (@forward_single_image 4 0%Q [1; 2; 0; 1; 0; 1; 2]
                [3; 5; 3; 7; 1; 3; 3] _ eq_refl eq_refl
                ltac:(repeat constructor)) as H.
  split.
  - match goal with
    | |- forward_result ?m _ = _ => exact (H m 640 640 eq_refl eq_refl)
    end.
  - match goal with
    | |- forward_result ?m _ = _ => exact (H m 640 640 eq_refl eq_refl)
    end.
Defined.

(** ** What a pass does to the network *)

Lemma layer_state_eval (l : Layer) (x : Shape.shape) :
  fst (layer_forward false l x) = l.
Proof.
  destruct l; try reflexivity;
    cbn [layer_forward Shape.tensor Shape.layer_forward];
    unfold Shape.batch_norm;
    destruct (negb (existsb _ _)); try reflexivity;
    cbn [andb]; destruct (negb (_ =? _)); reflexivity.
Qed.

Lemma sequential_state_fixed {L T} (fwd : L -> T -> L * result T) :
  (forall l x, fst (fwd l x) = l) ->
  forall modules x, fst (Sequential_forward fwd modules x) = modules.
Proof.
  intros Hfwd modules.
  induction modules as [| m rest IH]; intro x; [reflexivity |].
  cbn [Sequential_forward]. specialize (Hfwd m x).
  destruct (fwd m x) as [m' [y | e]]; cbn [fst] in Hfwd; subst m'.
  - specialize (IH y). destruct (Sequential_forward fwd rest y) as [rest' r].
    cbn [fst] in *. congruence.
  - reflexivity.
Qed.

Lemma seq_state_eval (modules : Sequential) (x : Shape.shape) :
  fst (Sequential_forward (layer_forward false) modules x) = modules.
Proof.
  apply sequential_state_fixed. apply layer_state_eval.
Qed.

Lemma block_state_eval (b : block.t) (x : Shape.shape) :
  fst (block.step false b x) = b.
Proof.
  destruct b as [c1 c2 c3].
  unfold block.step, block.forward, bind, call, lift, ret.
  cbn [get set block.conv1_ block.conv2_ block.conv3_ block.conv1
       block.conv2 block.conv3].
  pose proof (seq_state_eval c1 x) as H1.
  destruct (Sequential_forward _ c1 x) as [c1' [o1 | e]];
    cbn [fst block.conv1 block.conv2 block.conv3] in *; subst c1';
    [| reflexivity].
  pose proof (seq_state_eval c2 o1) as H2.
  destruct (Sequential_forward _ c2 o1) as [c2' [o2 | e]];
    cbn [fst block.conv1 block.conv2 block.conv3] in *; subst c2';
    [| reflexivity].
  pose proof (seq_state_eval c3 o2) as H3.
  destruct (Sequential_forward _ c3 o2) as [c3' [o3 | e]];
    cbn [fst block.conv1 block.conv2 block.conv3] in *; subst c3';
    [| reflexivity].
  destruct (iadd o3 x); reflexivity.
Qed.

Lemma chunk_state_eval (blocks : list block.t) (x : Shape.shape) :
  fst (Sequential_forward (block.step false) blocks x) = blocks.
Proof.
  apply sequential_state_fixed. apply block_state_eval.
Qed.

Ltac next_unchanged :=
  match goal with
  | |- context [Sequential_forward (layer_forward false) ?l ?x] =>
      let E := fresh "E" in
      pose proof (seq_state_eval l x) as E;
      destruct (Sequential_forward (layer_forward false) l x) as [? [? | ?]];
      cbn [fst] in E; subst
  | |- context [Sequential_forward (block.step false) ?l ?x] =>
      let E := fresh "E" in
      pose proof (chunk_state_eval l x) as E;
      destruct (Sequential_forward (block.step false) l x) as [? [? | ?]];
      cbn [fst] in E; subst
  | |- context [reshape_rows ?x] =>
      destruct (reshape_rows x)
  | |- context [layer_forward false ?l ?x] =>
      let E := fresh "E" in
      pose proof (layer_state_eval l x) as E;
      destruct (layer_forward false l x) as [? [? | ?]];
      cbn [fst] in E; subst
  end;
  reduce_attributes;
  try reflexivity.

(** In evaluation mode a pass leaves every attribute of the network as it
    was, whether it returns or raises. *)
Theorem forward_eval_unchanged (m : FracNet.t) (x : Shape.shape) :
  FracNet.training m = false -> fst (FracNet.forward x m) = m.
Proof.
  destruct m. cbn [FracNet.training]. intros ->.
  unfold FracNet.forward, FracNet.call_seq, FracNet.call_chunk,
    FracNet.call_layer, bind, call, lift, ret.
  cbv zeta. reduce_attributes.
  do 17 next_unchanged.
Qed.

Lemma forward_eval_unchanged_witness :
  exists m,
    FracNet.init 4 0%Q [1; 2; 0; 1; 0; 1; 2] [3; 5; 3; 7; 1; 3; 3]
                 [10; 10; 8; 8; 4; 4; 2] = Ok m /\
    fst (FracNet.forward [2; 1; 640; 640] (FracNet.train false m))
    = FracNet.train false m.
Proof.
  eexists. split; [reflexivity |].
  apply forward_eval_unchanged. reflexivity.
Defined.


(** ** Inputs rejected at the first layer *)






(** ** Kernel parity through chunks and through the network *)

Lemma convbr_inversion_bounds (training : bool) (i o k s p t : Z)
  (x y : Shape.shape) :
  seq_result training [Conv2d i o k s p; BatchNorm2d o t; LeakyReLU] x = Ok y ->
  exists n h w,
    x = [n; i; h; w] /\
    y = [n; o; Shape.conv_out h k s p; Shape.conv_out w k s p] /\
    0 < k /\ 0 < s /\ 0 <= p /\ k <= h + 2 * p /\ k <= w + 2 * p.
Proof.
  intro E. destruct (convbr_inversion _ _ _ _ _ _ _ _ E) as (n & h & w & -> & ->).
  exists n, h, w. split; [reflexivity |]. split; [reflexivity |].
  unfold seq_result in E.
  cbn [Sequential_forward layer_forward Shape.tensor Shape.layer_forward] in E.
  unfold Shape.conv2d in E.
  destruct (Z.ltb_spec 0 k), (Z.ltb_spec 0 s), (Z.leb_spec 0 p);
    cbn [andb negb] in E; try discriminate E.
  rewrite Z.eqb_refl in E. cbn [negb] in E.
  destruct (Z.ltb_spec (h + 2 * p) k), (Z.ltb_spec (w + 2 * p) k);
    cbn [orb] in E; try discriminate E.
  lia.
Qed.

(** What a block of the constructor can return: its input's shape when the
    kernel is odd; with an even kernel only a 1x1 input gets through, as
    2x2. *)
Lemma block_sizes (training : bool) (channels reduced ksize : Z)
  (x y : Shape.shape) :
  block_result training (block.init channels reduced ksize) x = Ok y ->
  exists n h w,
    x = [n; channels; h; w] /\ 0 < ksize /\ 1 <= h /\ 1 <= w /\
    ((Z.odd ksize = true /\ y = x) \/
     (Z.odd ksize = false /\ h = 1 /\ w = 1 /\ y = [n; channels; 2; 2])).
Proof.
  rewrite block_forward_result.
  unfold block.init, convbr, default. cbn [block.conv1 block.conv2 block.conv3].
  destruct (seq_result training _ x) as [o1 |] eqn:E1; [| discriminate].
  apply convbr_inversion_bounds in E1.
  destruct E1 as (n & h & w & -> & -> & _ & _ & _ & Hh & Hw).
  cbn [rbind].
  destruct (seq_result training _ _) as [o2 |] eqn:E2; [| discriminate].
  apply convbr_inversion_bounds in E2.
  destruct E2 as (n2 & h2 & w2 & [= <- <- <-] & -> & Hk & _).
  cbn [rbind].
  destruct (seq_result training _ _) as [o3 |] eqn:E3; [| discriminate].
  apply convbr_inversion_bounds in E3.
  destruct E3 as (n3 & h3 & w3 & [= <- <- <-] & -> & _).
  cbn [rbind]. rewrite !conv_out_pointwise.
  intro Hadd. exists n, h, w.
  split; [reflexivity |]. split; [exact Hk |].
  split; [lia |]. split; [lia |].
  destruct (Z.odd ksize) eqn:Hodd.
  - left. rewrite !conv_out_same in Hadd by assumption.
    rewrite iadd_same_shape in Hadd. injection Hadd as <-.
    split; reflexivity.
  - right. assert (Heven : Z.even ksize = true)
      by (rewrite <- Z.negb_odd, Hodd; reflexivity).
    rewrite !conv_out_grows in Hadd by assumption.
    rewrite iadd_grown in Hadd.
    destruct (Z.eqb_spec h 1) as [-> |]; [| discriminate Hadd].
    destruct (Z.eqb_spec w 1) as [-> |]; [| discriminate Hadd].
    injection Hadd as <-. repeat split.
Qed.

Lemma chunk_odd_inversion (training : bool)
  (channels chunks reduced ksize : Z) (x y : Shape.shape) :
  Z.odd ksize = true ->
  chunk_result training (FracNet.make_chunk channels chunks reduced ksize) x
  = Ok y ->
  y = x.
Proof.
  intro Hodd. rewrite make_chunk_repeat. revert x.
  induction (Z.to_nat chunks) as [| c IH]; intro x.
  - intros [= <-]. reflexivity.
  - cbn [repeat]. rewrite chunk_result_cons.
    destruct (block_result training _ x) as [z |] eqn:E; [| discriminate].
    apply block_sizes in E.
    destruct E as (n & h & w & -> & _ & _ & _ & [[_ ->] | [Heven _]]);
      [| congruence].
    cbn [rbind]. apply IH.
Qed.

(** A chunk of odd-kernel blocks, of any length, never changes the shape
    of what passes through it, and it lets through every batch of non-empty
    maps (more than one value per channel in training mode). *)
Theorem chunk_odd_keeps_shape (training : bool)
  (channels chunks reduced ksize : Z) :
  Z.odd ksize = true ->
  (forall x y,
      chunk_result training
        (FracNet.make_chunk channels chunks reduced ksize) x = Ok y ->
      y = x) /\
  (forall n h w,
      0 < ksize -> 1 <= h -> 1 <= w ->
      (training = true -> n * (h * w) <> 1) ->
      chunk_result training
        (FracNet.make_chunk channels chunks reduced ksize)
        [n; channels; h; w]
      = Ok [n; channels; h; w]).
Proof.
  intro Hodd. split.
  - intros x y. apply chunk_odd_inversion, Hodd.
  - intros n h w Hk Hh Hw Hvalues. apply chunk_odd_result; assumption.
Qed.

Lemma chunk_odd_keeps_shape_witness :
  chunk_result true (FracNet.make_chunk 16 5 16 3) [2; 16; 154; 154]
  = Ok [2; 16; 154; 154].
Proof.
  apply (@chunk_odd_keeps_shape true 16 5 16 3 eq_refl);
    [lia | lia | lia | intros _; lia].
Defined.

(** A chunk of two or more even-kernel blocks never returns: the first
    block lets only 1x1 maps through, as 2x2, and the second block then
    fails to add them to its 3x3 output. *)
Theorem chunk_even_never_returns (training : bool)
  (channels chunks reduced ksize : Z) :
  Z.even ksize = true -> 2 <= chunks ->
  forall x y,
    chunk_result training
      (FracNet.make_chunk channels chunks reduced ksize) x <> Ok y.
Proof.
  intros Heven Hc x y. rewrite make_chunk_repeat.
  destruct (Z.to_nat chunks) as [| [| c]] eqn:E; try lia.
  cbn [repeat]. rewrite chunk_result_cons.
  assert (Hodd : Z.odd ksize = false)
    by (rewrite <- Z.negb_even, Heven; reflexivity).
  destruct (block_result training _ x) as [z |] eqn:E1; [| discriminate].
  apply block_sizes in E1.
  destruct E1 as (n & h & w & -> & _ & _ & _ & [[Ho _] | (_ & _ & _ & ->)]);
    [congruence |].
  cbn [rbind]. rewrite chunk_result_cons.
  match goal with
  | |- rbind ?r _ <> _ => destruct r as [z |] eqn:E2; [| discriminate]
  end.
  apply block_sizes in E2.
  destruct E2 as (n2 & h2 & w2 & [= <- <- <-] & _ & _ & _ &
                  [[Ho _] | (_ & Hh & _)]); [congruence | lia].
Qed.

Lemma chunk_even_never_returns_witness :
  chunk_result true (FracNet.make_chunk 8 2 4 2) [2; 8; 1; 1]
  <> Ok [2; 8; 2; 2].
Proof.
  apply (@chunk_even_never_returns true 8 2 4 2 eq_refl); lia.
Defined.

Lemma pool_small (training : bool) (i o k : Z) (x y : Shape.shape) :
  small i x ->
  seq_result training (convbr i o (Some k) (Some 2) (Some 0)) x = Ok y ->
  small o y.
Proof.
  intros (n & h & w & -> & Hh & Hw) E.
  unfold convbr, default in E. apply convbr_inversion_bounds in E.
  destruct E as (n' & h' & w' & [= <- <- <-] & -> & Hk & _ & _ & Hkh & Hkw).
  exists n, (Shape.conv_out h k 2 0), (Shape.conv_out w k 2 0).
  split; [reflexivity |].
  pose proof (conv_out_bounds h k). pose proof (conv_out_bounds w k). lia.
Qed.

Lemma blocks_small (training : bool) (channels reduced ksize : Z) (c : nat)
  (x y : Shape.shape) :
  small channels x ->
  chunk_result training (repeat (block.init channels reduced ksize) c) x
  = Ok y ->
  small channels y.
Proof.
  revert x. induction c as [| c IH]; intros x Hx.
  - intros [= <-]. exact Hx.
  - cbn [repeat]. rewrite chunk_result_cons.
    destruct (block_result training _ x) as [z |] eqn:E; [| discriminate].
    cbn [rbind]. apply IH.
    apply block_sizes in E.
    destruct E as (n & h & w & -> & _ & _ & _ &
                   [[_ ->] | (_ & _ & _ & ->)]); [exact Hx |].
    exists n, 2, 2. split; [reflexivity | lia].
Qed.

Lemma chunk_small (training : bool) (channels chunks reduced ksize : Z)
  (x y : Shape.shape) :
  small channels x ->
  chunk_result training (FracNet.make_chunk channels chunks reduced ksize) x
  = Ok y ->
  small channels y.
Proof.
  rewrite make_chunk_repeat. apply blocks_small.
Qed.

(** Whatever a non-empty chunk of even-kernel blocks returns is 2x2. *)
Lemma chunk_even_small (training : bool) (channels chunks reduced ksize : Z)
  (x y : Shape.shape) :
  0 < chunks /\ Z.even ksize = true ->
  chunk_result training (FracNet.make_chunk channels chunks reduced ksize) x
  = Ok y ->
  small channels y.
Proof.
  intros [Hc Heven]. rewrite make_chunk_repeat.
  destruct (Z.to_nat chunks) as [| c] eqn:E; [lia |].
  cbn [repeat]. rewrite chunk_result_cons.
  destruct (block_result training _ x) as [z |] eqn:E1; [| discriminate].
  cbn [rbind]. apply blocks_small.
  apply block_sizes in E1.
  destruct E1 as (n & h & w & -> & _ & _ & _ &
                  [[Hodd _] | (_ & _ & _ & ->)]).
  - rewrite <- Z.negb_even, Heven in Hodd. discriminate.
  - exists n, 2, 2. split; [reflexivity | lia].
Qed.

(** Maps of at most 2x2 never have the nine values fc0 takes per
    channel. *)
Lemma small_never_fits (training : bool) (d : Q) (t : Z)
  (x rows z : Shape.shape) :
  small 512 x -> reshape_rows x = Ok rows ->
  seq_result training
    [Dropout d; Linear 4608 1000; BatchNorm1d 1000 t; LeakyReLU] rows
  <> Ok z.
Proof.
  intros (n & h & w & -> & Hh & Hw).
  cbn [reshape_rows Shape.tensor]. unfold Shape.reshape_rows.
  destruct (n =? 0); [discriminate |]. intros [= <-] E.
  apply fcbrd_inversion in E. destruct E as [E _].
  cbn [Shape.numel fold_right] in E.
  assert (Hh' : h = 1 \/ h = 2) by lia.
  assert (Hw' : w = 1 \/ w = 2) by lia.
  destruct Hh' as [-> | ->], Hw' as [-> | ->]; discriminate E.
Qed.

(** One stage read backwards, keeping track of maps that have become
    small. *)
Ltac invert_small_stage H :=
  match type of H with
  | rbind ?c _ = Ok _ =>
      let E := fresh "E" in
      destruct c eqn:E; [| discriminate H];
      cbn [rbind] in H;
      try match goal with
          | Hs : small _ ?x |- _ =>
              match type of E with
              | seq_result _ _ x = Ok _ =>
                  pose proof (@pool_small _ _ _ _ _ _ Hs E); clear Hs
              end
          end
  end;
  match type of H with
  | rbind ?c _ = Ok _ =>
      let E := fresh "E" in
      destruct c eqn:E; [| discriminate H];
      cbn [rbind] in H;
      first [ match goal with
              | Heven : 0 < _ /\ Z.even _ = true |- _ =>
                  pose proof (@chunk_even_small _ _ _ _ _ _ _ Heven E)
              end
            | match goal with
              | Hs : small _ ?x |- _ =>
                  match type of E with
                  | chunk_result _ _ x = Ok _ =>
                      pose proof (@chunk_small _ _ _ _ _ _ _ Hs E); clear Hs
                  end
              end
            | idtac ]
  end.

Ltac never_returns H :=
  do 7 invert_small_stage H;
  match type of H with
  | rbind ?c _ = Ok _ =>
      let E := fresh "E" in
      destruct c eqn:E; [| discriminate H];
      cbn [rbind] in H; unfold fcbrd, default in H;
      match type of H with
      | rbind ?c' _ = Ok _ =>
          let E' := fresh "E" in
          destruct c' eqn:E'; [| discriminate H];
          match goal with
          | Hs : small 512 _ |- _ =>
              exact (@small_never_fits _ _ _ _ _ _ Hs E E')
          end
      end
  end.

Lemma forward_even_kernel (num_classes : Z) (dropout : Q)
  (chunks ksize psize : list Z) (m : FracNet.t) (mode : bool) (i : nat)
  (x y : Shape.shape) :
  FracNet.init num_classes dropout chunks ksize psize = Ok m ->
  (i < 7)%nat ->
  0 < nth i chunks 0 /\ Z.even (nth i ksize 0) = true ->
  forward_result (FracNet.train mode m) x <> Ok y.
Proof.
  intros Hm Hi Heven H. apply init_inversion in Hm. destruct Hm as [-> _].
  rewrite forward_result_stages in H. cbv zeta in H. read_attributes_in H.
  do 7 (destruct i as [| i]; [never_returns H |]).
  lia.
Qed.

(** The note of the source, "ksize should only be odd numbers", is a
    requirement: when some stage has at least one block and an even kernel,
    the pass returns on no input at all, in either mode.  (Its blocks let
    only 1x1 maps through, as 2x2, and no later stage makes maps of nine
    values out of those.) *)
Theorem forward_even_kernel_never_returns (num_classes : Z) (dropout : Q)
  (chunks ksize psize : list Z) (m0 : FracNet.t) :
  FracNet.init num_classes dropout chunks ksize psize = Ok m0 ->
  (exists i, (i < 7)%nat /\
             0 < nth i chunks 0 /\ Z.even (nth i ksize 0) = true) ->
  forall m x y,
    architecture m = architecture m0 -> forward_result m x <> Ok y.
Proof.
  intros Hm (i & Hi & Heven) m x y Harch.
  assert (Hsame : forward_result m x
                  = forward_result (FracNet.train (FracNet.training m) m0) x).
  { apply forward_result_same; [reflexivity | exact Harch]. }
  rewrite Hsame. eapply forward_even_kernel; eassumption.
Qed.

Lemma forward_even_kernel_never_returns_witness :
  exists m,
    FracNet.init 4 0%Q [1; 2; 0; 1; 0; 1; 2] [3; 5; 3; 4; 1; 3; 3]
                 [10; 10; 8; 8; 4; 4; 2] = Ok m /\
    forward_result m [2; 1; 640; 640] <> Ok [2; 4].
Proof.
  eexists. split; [reflexivity |].
  match goal with
  | |- forward_result ?m _ <> _ =>
      apply (@forward_even_kernel_never_returns 4 0%Q [1; 2; 0; 1; 0; 1; 2]
               [3; 5; 3; 4; 1; 3; 3] [10; 10; 8; 8; 4; 4; 2] _ eq_refl
               ltac:(exists 3%nat; repeat split; lia)
               m [2; 1; 640; 640] [2; 4] eq_refl)
  end.
Defined.

(** ** Entries the constructor does not read *)

Lemma getitem_firstn (l : list Z) (i : nat) :
  (i < 7)%nat -> getitem (firstn 7 l) i = getitem l i.
Proof.
  intro Hi. unfold getitem. rewrite nth_error_firstn.
  destruct (Nat.ltb_spec i 7); [reflexivity | lia].
Qed.

(** The constructor reads the first seven entries of chunks, ksize and
    psize and nothing after them: longer lists build the same network. *)
Theorem init_reads_seven (num_classes : Z) (dropout : Q)
  (chunks ksize psize : list Z) :
  FracNet.init num_classes dropout (firstn 7 chunks) (firstn 7 ksize)
               (firstn 7 psize)
  = FracNet.init num_classes dropout chunks ksize psize.
Proof.
  unfold FracNet.init.
  rewrite !getitem_firstn by lia. reflexivity.
Qed.
